(** * The Job reconciler of scribe ([controllers/job_reconciler.go])

    A shallow embedding of [JobReconciler] and its methods, and the
    properties of the reconcile step, of the merge function [Apply] and of
    the three mover builders.

    Conventions of the embedding.
    - Go structs are records; one module per struct keeps the field names
      of the source ([Container.Name], [Volume.Name], ...).  Only the
      fields that the reconciler reads or writes are kept, plus a few
      fields it never touches (server-side defaults such as [DNSPolicy]),
      so that "leaves the rest alone" is a statement with content.
    - [int32]/[int64] are [Z] (no arithmetic is done on them), pointers to
      scalars are [option], a [map[string]string] that may be [nil] is an
      [option (gmap string string)].
    - Slices that are only ever assigned as a whole are lists.  The
      container slice is different: [AddEnv] writes through index 0 of the
      backing array, and [Apply] copies the slice header from the desired
      template into the Job, so the two share one array.  Container slices
      are therefore references into a store of backing arrays ([heap]),
      and a client that decodes into the Job may write into them.
      [Apply] shares the volume slice in the same way; no method of the
      reconciler writes through it, and it is kept as a list, so nothing
      is stated below about the desired volumes across a call of the
      client.
    - A method with a pointer receiver is a function from the reconciler to
      the reconciler; a panic (index out of range, nil dereference) is
      [None]. *)

From stdpp Require Import base option list gmap strings.
From Stdlib Require Import ZArith.

Local Open Scope Z_scope.
Local Open Scope string_scope.

(** ** Errors *)

Inductive Error :=
  | ErrNotFound
  | ErrConflict
  | ErrAlreadyOwned
  | ErrOther (msg : string).

#[global] Instance Error_eq_dec : EqDecision Error.
Proof. solve_decision. Defined.

(** [apierrors.IsNotFound]. *)
Definition IsNotFound (e : Error) : bool :=
  match e with ErrNotFound => true | _ => false end.

(** ** The Kubernetes objects ([corev1], [batchv1], [metav1]) *)

Module SecretKeySelector.
Record t := mk {
  Name : string;          (* LocalObjectReference.Name *)
  Key : string;
  Optional : option bool
}.
End SecretKeySelector.

Module EnvVarSource.
Record t := mk { SecretKeyRef : option SecretKeySelector.t }.
End EnvVarSource.

Module EnvVar.
Record t := mk {
  Name : string;
  Value : string;
  ValueFrom : option EnvVarSource.t
}.
End EnvVar.

Module VolumeMount.
Record t := mk { Name : string; MountPath : string }.
End VolumeMount.

Module Capabilities.
Record t := mk { Add : list string; Drop : list string }.
End Capabilities.

Module SecurityContext.
Record t := mk {
  Capabilities : option Capabilities.t;
  Privileged : option bool;
  RunAsUser : option Z;
  RunAsNonRoot : option bool
}.
End SecurityContext.

Module Container.
Record t := mk {
  Name : string;
  Image : string;
  Command : list string;
  Args : list string;
  Env : list EnvVar.t;
  VolumeMounts : list VolumeMount.t;
  SecurityContext : option SecurityContext.t
}.
Definition set_Env (env : list EnvVar.t) (c : t) : t :=
  mk (Name c) (Image c) (Command c) (Args c) env (VolumeMounts c)
     (SecurityContext c).
Definition set_Image (image : string) (c : t) : t :=
  mk (Name c) image (Command c) (Args c) (Env c) (VolumeMounts c)
     (SecurityContext c).
End Container.

Module PersistentVolumeClaimVolumeSource.
Record t := mk { ClaimName : string; ReadOnly : bool }.
End PersistentVolumeClaimVolumeSource.

Module SecretVolumeSource.
Record t := mk { SecretName : string; DefaultMode : option Z }.
End SecretVolumeSource.

Module VolumeSource.
Record t := mk {
  PersistentVolumeClaim : option PersistentVolumeClaimVolumeSource.t;
  Secret : option SecretVolumeSource.t
}.
End VolumeSource.

Module Volume.
Record t := mk { Name : string; VolumeSource : VolumeSource.t }.
End Volume.

(** A [[]corev1.Container] value: [None] is the nil slice, [Some l] is a
    slice over the whole backing array stored at [l].  The source never
    reslices, so offset, length and capacity need no model. *)
Definition ContainerSlice := option nat.

Module PodSpec.
Record t := mk {
  Volumes : list Volume.t;
  Containers : ContainerSlice;
  RestartPolicy : string;
  ServiceAccountName : string;
  DNSPolicy : string;
  SchedulerName : string
}.
Definition set_Volumes (vs : list Volume.t) (p : t) : t :=
  mk vs (Containers p) (RestartPolicy p) (ServiceAccountName p)
     (DNSPolicy p) (SchedulerName p).
Definition set_Containers (cs : ContainerSlice) (p : t) : t :=
  mk (Volumes p) cs (RestartPolicy p) (ServiceAccountName p)
     (DNSPolicy p) (SchedulerName p).
Definition set_RestartPolicy (rp : string) (p : t) : t :=
  mk (Volumes p) (Containers p) rp (ServiceAccountName p)
     (DNSPolicy p) (SchedulerName p).
Definition set_ServiceAccountName (sa : string) (p : t) : t :=
  mk (Volumes p) (Containers p) (RestartPolicy p) sa
     (DNSPolicy p) (SchedulerName p).
End PodSpec.

Module OwnerReference.
Record t := mk {
  APIVersion : string;
  Kind : string;
  Name : string;
  UID : string;
  Controller : option bool;
  BlockOwnerDeletion : option bool
}.
End OwnerReference.

Module ObjectMeta.
Record t := mk {
  Name : string;
  Namespace : string;
  Labels : option (gmap string string);
  OwnerReferences : list OwnerReference.t
}.
Definition set_Labels (ls : option (gmap string string)) (m : t) : t :=
  mk (Name m) (Namespace m) ls (OwnerReferences m).
End ObjectMeta.

Module PodTemplateSpec.
Record t := mk { ObjectMeta : ObjectMeta.t; Spec : PodSpec.t }.
Definition set_ObjectMeta (m : ObjectMeta.t) (p : t) : t := mk m (Spec p).
Definition set_Spec (sp : PodSpec.t) (p : t) : t := mk (ObjectMeta p) sp.
(* The embedded ObjectMeta promotes its fields: [tpl.Labels]. *)
Definition Labels (p : t) : option (gmap string string) :=
  ObjectMeta.Labels (ObjectMeta p).
Definition set_Labels (ls : option (gmap string string)) (p : t) : t :=
  set_ObjectMeta (ObjectMeta.set_Labels ls (ObjectMeta p)) p.
End PodTemplateSpec.

Module JobSpec.
Record t := mk {
  Parallelism : option Z;
  Completions : option Z;
  BackoffLimit : option Z;
  Template : PodTemplateSpec.t
}.
Definition set_Parallelism (n : option Z) (sp : t) : t :=
  mk n (Completions sp) (BackoffLimit sp) (Template sp).
Definition set_BackoffLimit (n : option Z) (sp : t) : t :=
  mk (Parallelism sp) (Completions sp) n (Template sp).
Definition set_Template (tpl : PodTemplateSpec.t) (sp : t) : t :=
  mk (Parallelism sp) (Completions sp) (BackoffLimit sp) tpl.
End JobSpec.

Module JobStatus.
Record t := mk { Active : Z; Succeeded : Z; Failed : Z }.
End JobStatus.

Module Job.
Record t := mk {
  ObjectMeta : ObjectMeta.t;
  Spec : JobSpec.t;
  Status : JobStatus.t
}.
Definition set_ObjectMeta (m : ObjectMeta.t) (j : t) : t :=
  mk m (Spec j) (Status j).
Definition set_Spec (sp : JobSpec.t) (j : t) : t :=
  mk (ObjectMeta j) sp (Status j).
Definition set_Status (st : JobStatus.t) (j : t) : t :=
  mk (ObjectMeta j) (Spec j) st.
(* Paths into the Job that the reconciler follows. *)
Definition Template (j : t) : PodTemplateSpec.t := JobSpec.Template (Spec j).
Definition set_Template (tpl : PodTemplateSpec.t) (j : t) : t :=
  set_Spec (JobSpec.set_Template tpl (Spec j)) j.
Definition PodSpec (j : t) : PodSpec.t := PodTemplateSpec.Spec (Template j).
Definition set_PodSpec (p : PodSpec.t) (j : t) : t :=
  set_Template (PodTemplateSpec.set_Spec p (Template j)) j.
End Job.

#[global] Instance SecretKeySelector_eq_dec : EqDecision SecretKeySelector.t.
Proof. solve_decision. Defined.
#[global] Instance EnvVarSource_eq_dec : EqDecision EnvVarSource.t.
Proof. solve_decision. Defined.
#[global] Instance EnvVar_eq_dec : EqDecision EnvVar.t.
Proof. solve_decision. Defined.
#[global] Instance VolumeMount_eq_dec : EqDecision VolumeMount.t.
Proof. solve_decision. Defined.
#[global] Instance Capabilities_eq_dec : EqDecision Capabilities.t.
Proof. solve_decision. Defined.
#[global] Instance SecurityContext_eq_dec : EqDecision SecurityContext.t.
Proof. solve_decision. Defined.
#[global] Instance Container_eq_dec : EqDecision Container.t.
Proof. solve_decision. Defined.
#[global] Instance PVCVolumeSource_eq_dec :
  EqDecision PersistentVolumeClaimVolumeSource.t.
Proof. solve_decision. Defined.
#[global] Instance SecretVolumeSource_eq_dec : EqDecision SecretVolumeSource.t.
Proof. solve_decision. Defined.
#[global] Instance VolumeSource_eq_dec : EqDecision VolumeSource.t.
Proof. solve_decision. Defined.
#[global] Instance Volume_eq_dec : EqDecision Volume.t.
Proof. solve_decision. Defined.
#[global] Instance PodSpec_eq_dec : EqDecision PodSpec.t.
Proof. solve_decision. Defined.
#[global] Instance OwnerReference_eq_dec : EqDecision OwnerReference.t.
Proof. solve_decision. Defined.
#[global] Instance ObjectMeta_eq_dec : EqDecision ObjectMeta.t.
Proof. solve_decision. Defined.
#[global] Instance PodTemplateSpec_eq_dec : EqDecision PodTemplateSpec.t.
Proof. solve_decision. Defined.
#[global] Instance JobSpec_eq_dec : EqDecision JobSpec.t.
Proof. solve_decision. Defined.
#[global] Instance JobStatus_eq_dec : EqDecision JobStatus.t.
Proof. solve_decision. Defined.
#[global] Instance Job_eq_dec : EqDecision Job.t.
Proof. solve_decision. Defined.


(** ** Collaborators outside the file *)

(** [ctrl.SetControllerReference] of controller-runtime, with the owner and
    scheme types it works on.  It sees the controlled object through the
    [metav1.Object] interface, that is, through its metadata only; it
    either fails and leaves the object alone, or stamps the owner
    reference. *)
Class Platform := {
  Owner : Type;
  Scheme : Type;
  SetControllerReference :
    Owner → ObjectMeta.t → Scheme → Error + ObjectMeta.t
}.

(** Package-level names that [job_reconciler.go] uses and other files of
    the package declare: the mount paths, volume names and images, and the
    helper [envFromSecret]. *)
Class Constants := {
  mountPath : string;
  dataVolumeName : string;
  resticCacheMountPath : string;
  resticCache : string;
  rcloneSecret : string;
  RsyncContainerImage : string;
  ResticContainerImage : string;
  RcloneContainerImage : string;
  envFromSecret : string → string → bool → EnvVar.t
}.

(** What [logr.Logger] was asked to write. *)
Inductive LogEntry :=
  | LogError (err : Error) (msg : string)
  | LogInfo (msg : string) (keysAndValues : list (string * string)).

(** The store of backing arrays of container slices. *)
Abbreviation Heap := (list (list Container.t)) (only parsing).

(** [len(s)] and [s[i]] read through the slice header. *)
Definition deref (h : Heap) (s : ContainerSlice) : list Container.t :=
  match s with
  | None => []
  | Some l => default [] (h !! l)
  end.

(** A composite literal [[]corev1.Container{...}] allocates a new array. *)
Definition alloc (cs : list Container.t) (h : Heap) : nat * Heap :=
  (length h, (h ++ [cs])%list).

(** [corev1.RestartPolicyNever]. *)
Definition RestartPolicyNever : string := "Never".

(** The zero values that a composite literal leaves in unnamed fields. *)
Definition zero_ObjectMeta : ObjectMeta.t := ObjectMeta.mk "" "" None [].
Definition zero_PodSpec : PodSpec.t := PodSpec.mk [] None "" "" "" "".
Definition zero_PodTemplateSpec : PodTemplateSpec.t :=
  PodTemplateSpec.mk zero_ObjectMeta zero_PodSpec.

(** ** The API client

    [client.Client] of controller-runtime is an interface; the reconciler
    uses it on Jobs only.  A call reads the object it is given, may change
    the state [W] of the cluster, and (for [Get], [Create], [Update])
    decodes the server's answer into the object, which may allocate. *)

(** [types.NamespacedName]. *)
Definition ObjectKey : Type := string * string.

(** [client.ObjectKeyFromObject]. *)
Definition ObjectKeyFromObject (j : Job.t) : ObjectKey :=
  (ObjectMeta.Namespace (Job.ObjectMeta j), ObjectMeta.Name (Job.ObjectMeta j)).

(** [metav1.DeletionPropagation] and the delete options. *)
Inductive DeletionPropagation :=
  | DeletePropagationOrphan
  | DeletePropagationBackground
  | DeletePropagationForeground.

Inductive DeleteOption :=
  | PropagationPolicy (p : DeletionPropagation)
  | GracePeriodSeconds (s : Z).

#[global] Instance DeletionPropagation_eq_dec : EqDecision DeletionPropagation.
Proof. solve_decision. Defined.
#[global] Instance DeleteOption_eq_dec : EqDecision DeleteOption.
Proof. solve_decision. Defined.

Class Client (W : Type) := {
  Get : ObjectKey → Job.t * Heap → W → option Error * (Job.t * Heap) * W;
  Create : Job.t * Heap → W → option Error * (Job.t * Heap) * W;
  Update : Job.t * Heap → W → option Error * (Job.t * Heap) * W;
  Delete : Job.t * Heap → list DeleteOption → W → option Error * W
}.

(** [controllerutil.OperationResult], a string type. *)
Inductive OperationResult :=
  | OperationResultNone
  | OperationResultCreated
  | OperationResultUpdated.

Definition OperationResult_string (op : OperationResult) : string :=
  match op with
  | OperationResultNone => "unchanged"
  | OperationResultCreated => "created"
  | OperationResultUpdated => "updated"
  end.

(** [equality.Semantic.DeepEqual] on Jobs: pointers are followed, and a
    nil map or slice equals an empty one.  A Job is compared together with
    the elements of its container slice. *)
Definition canon_labels (ls : option (gmap string string))
    : option (gmap string string) :=
  match ls with
  | Some m => if decide (m = ∅) then None else Some m
  | None => None
  end.

Definition canon_meta (m : ObjectMeta.t) : ObjectMeta.t :=
  ObjectMeta.set_Labels (canon_labels (ObjectMeta.Labels m)) m.

Definition canon (v : Job.t * list Container.t) : Job.t * list Container.t :=
  let j := Job.set_ObjectMeta (canon_meta (Job.ObjectMeta v.1)) v.1 in
  let j := Job.set_Template
             (PodTemplateSpec.set_ObjectMeta
                (canon_meta (PodTemplateSpec.ObjectMeta (Job.Template j)))
                (Job.Template j)) j in
  let j := Job.set_PodSpec (PodSpec.set_Containers None (Job.PodSpec j)) j in
  (j, v.2).

Definition DeepEqual (a b : Job.t * list Container.t) : bool :=
  bool_decide (canon a = canon b).

(** ** The reconciler *)

Section Reconciler.
Context `{Platform} `{Constants}.

(** [type JobReconciler struct].  [job] is the target of the [*batchv1.Job]
    pointer; [logger] is what has been logged so far; [heap] holds the
    backing arrays that the container slices of [job] and [desired] point
    into. *)
Record JobReconciler := {
  logger : list LogEntry;
  scheme : Scheme;
  owner : Owner;
  job : Job.t;
  desired : PodTemplateSpec.t;
  paused : bool;
  heap : Heap
}.

Definition set_logger (l : list LogEntry) (jr : JobReconciler) :=
  {| logger := l; scheme := scheme jr; owner := owner jr; job := job jr;
     desired := desired jr; paused := paused jr; heap := heap jr |}.
Definition set_job (j : Job.t) (jr : JobReconciler) :=
  {| logger := logger jr; scheme := scheme jr; owner := owner jr; job := j;
     desired := desired jr; paused := paused jr; heap := heap jr |}.
Definition set_desired (d : PodTemplateSpec.t) (jr : JobReconciler) :=
  {| logger := logger jr; scheme := scheme jr; owner := owner jr;
     job := job jr; desired := d; paused := paused jr; heap := heap jr |}.
Definition set_paused (p : bool) (jr : JobReconciler) :=
  {| logger := logger jr; scheme := scheme jr; owner := owner jr;
     job := job jr; desired := desired jr; paused := p; heap := heap jr |}.
Definition set_heap (h : Heap) (jr : JobReconciler) :=
  {| logger := logger jr; scheme := scheme jr; owner := owner jr;
     job := job jr; desired := desired jr; paused := paused jr; heap := h |}.

(** [jr.logger.Error] and [jr.logger.Info]. *)
Definition log_Error (err : Error) (msg : string) (jr : JobReconciler) :=
  set_logger (logger jr ++ [LogError err msg])%list jr.
Definition log_Info (msg : string) (kv : list (string * string))
    (jr : JobReconciler) :=
  set_logger (logger jr ++ [LogInfo msg kv])%list jr.

(** The containers that the desired template and the Job currently hold. *)
Definition desired_containers (jr : JobReconciler) : list Container.t :=
  deref (heap jr) (PodSpec.Containers (PodTemplateSpec.Spec (desired jr))).
Definition job_containers (jr : JobReconciler) : list Container.t :=
  deref (heap jr) (PodSpec.Containers (Job.PodSpec (job jr))).

(** [func NewJobReconciler]: the Job pointer is given as the Job and the
    store its container slice lives in. *)
Definition NewJobReconciler (lg : list LogEntry) (sch : Scheme) (own : Owner)
    (j : Job.t) (h : Heap) : JobReconciler :=
  {| logger := lg; scheme := sch; owner := own; job := j;
     desired := zero_PodTemplateSpec; paused := false; heap := h |}.

(** [func (jr *JobReconciler) SetPause]. *)
Definition SetPause (pause : bool) (jr : JobReconciler) : JobReconciler :=
  set_paused pause jr.

(** [func (jr *JobReconciler) SetServiceAccount]. *)
Definition SetServiceAccount (saName : string) (jr : JobReconciler)
    : JobReconciler :=
  set_desired
    (PodTemplateSpec.set_Spec
       (PodSpec.set_ServiceAccountName saName
          (PodTemplateSpec.Spec (desired jr)))
       (desired jr))
    jr.

(** The label loop of [Apply]:
    [if live == nil { live = map[string]string{} }] and then
    [for k, v := range desired { live[k] = v }].  Ranging over a nil map
    runs no iteration. *)
Definition merge_labels (desiredLabels live : option (gmap string string))
    : option (gmap string string) :=
  let live := match live with None => ∅ | Some m => m end in
  Some (map_fold (λ k v acc, <[k:=v]> acc) live (default ∅ desiredLabels)).

(** [func (jr *JobReconciler) Apply]. *)
Definition Apply (jr : JobReconciler) : option Error * JobReconciler :=
  match SetControllerReference (owner jr) (Job.ObjectMeta (job jr))
          (scheme jr) with
  | inl err =>
      (Some err, log_Error err "unable to set controller reference" jr)
  | inr meta =>
      let j := Job.set_ObjectMeta meta (job jr) in
      (* Merge labels *)
      let j :=
        Job.set_Template
          (PodTemplateSpec.set_Labels
             (merge_labels (PodTemplateSpec.Labels (desired jr))
                (PodTemplateSpec.Labels (Job.Template j)))
             (Job.Template j))
          j in
      let backoffLimit := 2 in
      let j := Job.set_Spec
                 (JobSpec.set_BackoffLimit (Some backoffLimit) (Job.Spec j))
                 j in
      let j := Job.set_PodSpec
                 (PodSpec.set_RestartPolicy RestartPolicyNever (Job.PodSpec j))
                 j in
      let parallelism := if paused jr then 0 else 1 in
      let j := Job.set_Spec
                 (JobSpec.set_Parallelism (Some parallelism) (Job.Spec j))
                 j in
      let d := PodTemplateSpec.Spec (desired jr) in
      let j := Job.set_PodSpec
                 (PodSpec.set_Containers (PodSpec.Containers d)
                    (Job.PodSpec j))
                 j in
      let j := Job.set_PodSpec
                 (PodSpec.set_ServiceAccountName (PodSpec.ServiceAccountName d)
                    (Job.PodSpec j))
                 j in
      let j := Job.set_PodSpec
                 (PodSpec.set_Volumes (PodSpec.Volumes d) (Job.PodSpec j))
                 j in
      (None, set_job j jr)
  end.

(** A literal [corev1.EnvVar{Name: n, Value: v}]. *)
Definition env (n v : string) : EnvVar.t := EnvVar.mk n v None.

(** The literal [0600]. *)
Definition mode_0600 : Z := 6 * 8 * 8.

(** A volume backed by a claim, and one backed by a secret, as the
    builders write them. *)
Definition pvc_volume (name claim : string) : Volume.t :=
  Volume.mk name
    (VolumeSource.mk
       (Some (PersistentVolumeClaimVolumeSource.mk claim false)) None).
Definition secret_volume (name secret : string) (mode : Z) : Volume.t :=
  Volume.mk name
    (VolumeSource.mk None (Some (SecretVolumeSource.mk secret (Some mode)))).

(** [jr.desired.Spec = corev1.PodSpec{Containers: []corev1.Container{c},
    Volumes: vs}]: the whole pod spec is assigned, the container array is
    new. *)
Definition assign_desired_spec (c : Container.t) (vs : list Volume.t)
    (jr : JobReconciler) : JobReconciler :=
  let '(l, h) := alloc [c] (heap jr) in
  set_heap h
    (set_desired
       (PodTemplateSpec.set_Spec
          (PodSpec.set_Volumes vs
             (PodSpec.set_Containers (Some l) zero_PodSpec))
          (desired jr))
       jr).

(** [func (jr *JobReconciler) ConfigureRclone]. *)
Definition ConfigureRclone (isSource : bool)
    (dataPVCName destinationPath configSection rcloneSecretName : string)
    (jr : JobReconciler) : JobReconciler :=
  let runAsUser := 0 in
  let secretMode := mode_0600 in
  let direction := if isSource then "source" else "destination" in
  assign_desired_spec
    {| Container.Name := "rclone";
       Container.Env :=
         [ env "RCLONE_DEST_PATH" destinationPath;
           env "DIRECTION" direction;
           env "RCLONE_CONFIG" "/rclone-config/rclone.conf";
           env "RCLONE_CONFIG_SECTION" configSection;
           env "MOUNT_PATH" mountPath ];
       Container.Command := ["/bin/bash"; "-c"; "./active.sh"];
       Container.Args := [];
       Container.Image := RcloneContainerImage;
       Container.SecurityContext :=
         Some {| SecurityContext.Capabilities := None;
                 SecurityContext.Privileged := None;
                 SecurityContext.RunAsUser := Some runAsUser;
                 SecurityContext.RunAsNonRoot := None |};
       Container.VolumeMounts :=
         [ VolumeMount.mk dataVolumeName mountPath;
           VolumeMount.mk rcloneSecret "/rclone-config" ] |}
    [ pvc_volume dataVolumeName dataPVCName;
      secret_volume rcloneSecret rcloneSecretName secretMode ]
    jr.

(** [type ResticAction string] and its three constants. *)
Definition ResticAction := string.
Definition BackupOnly : ResticAction := "BackupOnly".
Definition BackupAndPrune : ResticAction := "BackupAndPrune".
Definition Restore : ResticAction := "Restore".

(** The action list that [ConfigureRestic] computes before it builds the
    pod spec: two [if]s in a row over a default. *)
Definition restic_actions (action : ResticAction) : list string :=
  let actions := ["backup"] in
  let actions :=
    if decide (action = BackupAndPrune) then ["backup"; "prune"]
    else actions in
  let actions :=
    if decide (action = Restore) then ["restore"] else actions in
  actions.

(** [func (jr *JobReconciler) ConfigureRestic]. *)
Definition ConfigureRestic (action : ResticAction)
    (forgetOptions dataPVCName cachePVCName resticSecretName : string)
    (jr : JobReconciler) : JobReconciler :=
  let runAsUser := 0 in
  let actions := restic_actions action in
  assign_desired_spec
    {| Container.Name := "restic";
       Container.Env :=
         [ env "FORGET_OPTIONS" forgetOptions;
           env "DATA_DIR" mountPath;
           env "RESTIC_CACHE_DIR" resticCacheMountPath;
           envFromSecret resticSecretName "RESTIC_REPOSITORY" false;
           envFromSecret resticSecretName "RESTIC_PASSWORD" false;
           envFromSecret resticSecretName "AWS_ACCESS_KEY_ID" true;
           envFromSecret resticSecretName "AWS_SECRET_ACCESS_KEY" true;
           envFromSecret resticSecretName "AWS_DEFAULT_REGION" true;
           envFromSecret resticSecretName "ST_AUTH" true;
           envFromSecret resticSecretName "ST_USER" true;
           envFromSecret resticSecretName "ST_KEY" true;
           envFromSecret resticSecretName "OS_AUTH_URL" true;
           envFromSecret resticSecretName "OS_REGION_NAME" true;
           envFromSecret resticSecretName "OS_USERNAME" true;
           envFromSecret resticSecretName "OS_USER_ID" true;
           envFromSecret resticSecretName "OS_PASSWORD" true;
           envFromSecret resticSecretName "OS_TENANT_ID" true;
           envFromSecret resticSecretName "OS_TENANT_NAME" true;
           envFromSecret resticSecretName "OS_USER_DOMAIN_NAME" true;
           envFromSecret resticSecretName "OS_USER_DOMAIN_ID" true;
           envFromSecret resticSecretName "OS_PROJECT_NAME" true;
           envFromSecret resticSecretName "OS_PROJECT_DOMAIN_NAME" true;
           envFromSecret resticSecretName "OS_PROJECT_DOMAIN_ID" true;
           envFromSecret resticSecretName "OS_TRUST_ID" true;
           envFromSecret resticSecretName "OS_APPLICATION_CREDENTIAL_ID" true;
           envFromSecret resticSecretName "OS_APPLICATION_CREDENTIAL_NAME" true;
           envFromSecret resticSecretName "OS_APPLICATION_CREDENTIAL_SECRET"
             true;
           envFromSecret resticSecretName "OS_STORAGE_URL" true;
           envFromSecret resticSecretName "OS_AUTH_TOKEN" true;
           envFromSecret resticSecretName "B2_ACCOUNT_ID" true;
           envFromSecret resticSecretName "B2_ACCOUNT_KEY" true;
           envFromSecret resticSecretName "AZURE_ACCOUNT_NAME" true;
           envFromSecret resticSecretName "AZURE_ACCOUNT_KEY" true;
           envFromSecret resticSecretName "GOOGLE_PROJECT_ID" true;
           envFromSecret resticSecretName "GOOGLE_APPLICATION_CREDENTIALS"
             true ];
       Container.Command := ["/entry.sh"];
       Container.Args := actions;
       Container.Image := ResticContainerImage;
       Container.SecurityContext :=
         Some {| SecurityContext.Capabilities := None;
                 SecurityContext.Privileged := None;
                 SecurityContext.RunAsUser := Some runAsUser;
                 SecurityContext.RunAsNonRoot := None |};
       Container.VolumeMounts :=
         [ VolumeMount.mk dataVolumeName mountPath;
           VolumeMount.mk resticCache resticCacheMountPath ] |}
    [ pvc_volume dataVolumeName dataPVCName;
      pvc_volume resticCache cachePVCName ]
    jr.

(** [func (jr *JobReconciler) ConfigureRsync]. *)
Definition ConfigureRsync (labels : option (gmap string string))
    (isSource : bool) (dataPVCName sshSecretName : string)
    (jr : JobReconciler) : JobReconciler :=
  let runAsUser := 0 in
  let secretMode := mode_0600 in
  let command := ["/bin/bash"; "-c"; "/destination.sh"] in
  let command :=
    if isSource then ["/bin/bash"; "-c"; "/source.sh"] else command in
  let jr := set_desired (PodTemplateSpec.set_Labels labels (desired jr)) jr in
  assign_desired_spec
    {| Container.Name := "rsync";
       Container.Command := command;
       Container.Args := [];
       Container.Env := [];
       Container.Image := RsyncContainerImage;
       Container.SecurityContext :=
         Some {| SecurityContext.Capabilities :=
                   Some {| Capabilities.Add := ["AUDIT_WRITE"; "SYS_CHROOT"];
                           Capabilities.Drop := [] |};
                 SecurityContext.Privileged := None;
                 SecurityContext.RunAsUser := Some runAsUser;
                 SecurityContext.RunAsNonRoot := None |};
       Container.VolumeMounts :=
         [ VolumeMount.mk dataVolumeName mountPath;
           VolumeMount.mk "keys" "/keys" ] |}
    [ pvc_volume dataVolumeName dataPVCName;
      secret_volume "keys" sshSecretName secretMode ]
    jr.

(** [func (jr *JobReconciler) AddEnv].  [Containers[0]] is an index
    expression on the slice: it panics when the slice is empty or nil.
    The assignment writes the new [Env] into element 0 of the backing
    array, which every slice over that array sees. *)
Definition AddEnv (name value : string) (jr : JobReconciler)
    : option JobReconciler :=
  match PodSpec.Containers (PodTemplateSpec.Spec (desired jr)) with
  | None => None
  | Some l =>
      match heap jr !! l with
      | Some (c :: cs) =>
          let c' :=
            Container.set_Env (Container.Env c ++ [env name value])%list c in
          Some (set_heap (<[l := c' :: cs]> (heap jr)) jr)
      | _ => None
      end
  end.

(** ** Names for the statements *)

(** The Job that [Apply] leaves when the owner reference [meta] could be
    set: every assignment of the method, read off one by one. *)
Definition applied_job (meta : ObjectMeta.t) (jr : JobReconciler) : Job.t :=
  let live := job jr in
  let d := PodTemplateSpec.Spec (desired jr) in
  Job.mk meta
    (JobSpec.mk
       (Some (if paused jr then 0 else 1))
       (JobSpec.Completions (Job.Spec live))
       (Some 2)
       (PodTemplateSpec.mk
          (ObjectMeta.set_Labels
             (merge_labels (PodTemplateSpec.Labels (desired jr))
                (PodTemplateSpec.Labels (Job.Template live)))
             (PodTemplateSpec.ObjectMeta (Job.Template live)))
          (PodSpec.mk (PodSpec.Volumes d) (PodSpec.Containers d)
             RestartPolicyNever (PodSpec.ServiceAccountName d)
             (PodSpec.DNSPolicy (Job.PodSpec live))
             (PodSpec.SchedulerName (Job.PodSpec live)))))
    (Job.Status live).

(** A call of one of the three builders with its arguments, to speak of
    "every builder" in one statement. *)
Inductive BuilderCall :=
  | CallRsync (labels : option (gmap string string)) (isSource : bool)
      (dataPVCName sshSecretName : string)
  | CallRestic (action : ResticAction)
      (forgetOptions dataPVCName cachePVCName resticSecretName : string)
  | CallRclone (isSource : bool)
      (dataPVCName destinationPath configSection rcloneSecretName : string).

Definition run_builder (b : BuilderCall) (jr : JobReconciler)
    : JobReconciler :=
  match b with
  | CallRsync labels isSource dataPVCName sshSecretName =>
      ConfigureRsync labels isSource dataPVCName sshSecretName jr
  | CallRestic action forgetOptions dataPVCName cachePVCName secret =>
      ConfigureRestic action forgetOptions dataPVCName cachePVCName secret jr
  | CallRclone isSource dataPVCName destinationPath configSection secret =>
      ConfigureRclone isSource dataPVCName destinationPath configSection
        secret jr
  end.

(** The claim on the data volume that a builder call was given. *)
Definition data_claim (b : BuilderCall) : string :=
  match b with
  | CallRsync _ _ dataPVCName _ => dataPVCName
  | CallRestic _ _ dataPVCName _ _ => dataPVCName
  | CallRclone _ dataPVCName _ _ _ => dataPVCName
  end.

(** The states that a caller reaches once a builder has run: the builder
    itself from any state, and after it the setters and [Apply]. *)
Inductive Configured : JobReconciler → Prop :=
  | Configured_builder b jr : Configured (run_builder b jr)
  | Configured_SetPause p jr :
      Configured jr → Configured (SetPause p jr)
  | Configured_SetServiceAccount sa jr :
      Configured jr → Configured (SetServiceAccount sa jr)
  | Configured_AddEnv n v jr jr' :
      Configured jr → AddEnv n v jr = Some jr' → Configured jr'
  | Configured_Apply jr :
      Configured jr → Configured (Apply jr).2.

(** The container after [AddEnv]: the same container with one more
    binding at the end of its environment. *)
Definition with_env (name value : string) (c : Container.t) : Container.t :=
  Container.set_Env (Container.Env c ++ [env name value])%list c.

(** The sentence of the specification on the security context of the
    sync builder, for one call: the run-as user is a numeric user other
    than root, and exactly the two capabilities are added. *)
Definition rsync_unprivileged_claim (labels : option (gmap string string))
    (isSource : bool) (dataPVCName sshSecretName : string)
    (jr : JobReconciler) : Prop :=
  ∃ c sc u caps,
    desired_containers
      (ConfigureRsync labels isSource dataPVCName sshSecretName jr) = [c]
    ∧ Container.SecurityContext c = Some sc
    ∧ SecurityContext.RunAsUser sc = Some u
    ∧ u ≠ 0
    ∧ SecurityContext.Capabilities sc = Some caps
    ∧ Capabilities.Add caps = ["AUDIT_WRITE"; "SYS_CHROOT"].

(** Whether a builder call is one of [ConfigureRsync], and the secret
    with the credentials that a builder call names for a volume, if it
    names one. *)
Definition is_rsync (b : BuilderCall) : bool :=
  match b with
  | CallRsync _ _ _ _ => true
  | _ => false
  end.

Definition secret_of (b : BuilderCall) : option string :=
  match b with
  | CallRsync _ _ _ sshSecretName => Some sshSecretName
  | CallRestic _ _ _ _ _ => None
  | CallRclone _ _ _ _ rcloneSecretName => Some rcloneSecretName
  end.

(** A slice header that is nil or points into the store. *)
Definition valid_slice (h : Heap) (s : ContainerSlice) : Prop :=
  match s with
  | None => True
  | Some l => (l < length h)%nat
  end.

(** A caller's run of [AddEnv] calls, one per pair and in the order of the
    list; the first panic ends the run. *)
Fixpoint AddEnvs (kvs : list (string * string)) (jr : JobReconciler)
    : option JobReconciler :=
  match kvs with
  | [] => Some jr
  | (name, value) :: rest => AddEnv name value jr ≫= AddEnvs rest
  end.

(** The variables that [ConfigureRestic] takes from the repository secret,
    each with the optional flag that it passes to [envFromSecret], in the
    order of the source. *)
Definition restic_secret_variables : list (string * bool) :=
  [ ("RESTIC_REPOSITORY", false);
    ("RESTIC_PASSWORD", false);
    ("AWS_ACCESS_KEY_ID", true);
    ("AWS_SECRET_ACCESS_KEY", true);
    ("AWS_DEFAULT_REGION", true);
    ("ST_AUTH", true);
    ("ST_USER", true);
    ("ST_KEY", true);
    ("OS_AUTH_URL", true);
    ("OS_REGION_NAME", true);
    ("OS_USERNAME", true);
    ("OS_USER_ID", true);
    ("OS_PASSWORD", true);
    ("OS_TENANT_ID", true);
    ("OS_TENANT_NAME", true);
    ("OS_USER_DOMAIN_NAME", true);
    ("OS_USER_DOMAIN_ID", true);
    ("OS_PROJECT_NAME", true);
    ("OS_PROJECT_DOMAIN_NAME", true);
    ("OS_PROJECT_DOMAIN_ID", true);
    ("OS_TRUST_ID", true);
    ("OS_APPLICATION_CREDENTIAL_ID", true);
    ("OS_APPLICATION_CREDENTIAL_NAME", true);
    ("OS_APPLICATION_CREDENTIAL_SECRET", true);
    ("OS_STORAGE_URL", true);
    ("OS_AUTH_TOKEN", true);
    ("B2_ACCOUNT_ID", true);
    ("B2_ACCOUNT_KEY", true);
    ("AZURE_ACCOUNT_NAME", true);
    ("AZURE_ACCOUNT_KEY", true);
    ("GOOGLE_PROJECT_ID", true);
    ("GOOGLE_APPLICATION_CREDENTIALS", true) ].

(** The value of the variable [name] in an environment: that of the
    first binding with this name. *)
Definition env_value (name : string) (e : list EnvVar.t) : option string :=
  EnvVar.Value <$> head (filter (λ v, EnvVar.Name v = name) e).

(** A reconciler whose Job already is what [Apply] would make of it: the
    owner reference is in place, the four fixed fields and the three owned
    fields have their values (the containers element by element, whatever
    array holds them), and every desired label is on the template. *)
Definition converged (jr : JobReconciler) : Prop :=
  let j := job jr in
  let d := PodTemplateSpec.Spec (desired jr) in
  SetControllerReference (owner jr) (Job.ObjectMeta j) (scheme jr)
  = inr (Job.ObjectMeta j)
  ∧ JobSpec.Parallelism (Job.Spec j) = Some (if paused jr then 0 else 1)
  ∧ JobSpec.BackoffLimit (Job.Spec j) = Some 2
  ∧ PodSpec.RestartPolicy (Job.PodSpec j) = RestartPolicyNever
  ∧ job_containers jr = desired_containers jr
  ∧ PodSpec.Volumes (Job.PodSpec j) = PodSpec.Volumes d
  ∧ PodSpec.ServiceAccountName (Job.PodSpec j) = PodSpec.ServiceAccountName d
  ∧ default ∅ (PodTemplateSpec.Labels (desired jr))
    ⊆ default ∅ (PodTemplateSpec.Labels (Job.Template j)).

(** ** Reconcile *)

Section WithClient.
Context {W : Type} `{Client W}.

(** The object that the client works on is [jr.job]. *)
Definition set_obj (o : Job.t * Heap) (jr : JobReconciler) : JobReconciler :=
  set_heap o.2 (set_job o.1 jr).

(** [obj.DeepCopyObject()]. *)
Definition snapshot (jr : JobReconciler) : Job.t * list Container.t :=
  (job jr, job_containers jr).

(** Modelled from the spec: the helper [mutate] of controller-runtime's
    [controllerutil] package, which is not in this repository: it runs the
    mutation function and refuses a changed name or namespace. *)
Definition mutate (f : JobReconciler → option Error * JobReconciler)
    (key : ObjectKey) (jr : JobReconciler) : option Error * JobReconciler :=
  let '(err, jr) := f jr in
  match err with
  | Some e => (Some e, jr)
  | None =>
      if decide (key = ObjectKeyFromObject (job jr)) then (None, jr)
      else
        (Some (ErrOther
           "MutateFn cannot mutate object name and/or object namespace"), jr)
  end.

(** Modelled from the spec: [controllerutil.CreateOrUpdate] of
    controller-runtime, which is not in this repository (section 4.3,
    steps 1 to 3): fetch the object; if it is absent, apply the mutation
    and create it; if it is present, apply the mutation and update it
    unless the mutation changed nothing.  It reports which of the three
    happened. *)
Definition CreateOrUpdate (f : JobReconciler → option Error * JobReconciler)
    (jr : JobReconciler) (w : W)
    : OperationResult * option Error * JobReconciler * W :=
  let key := ObjectKeyFromObject (job jr) in
  let '(err, o, w) := Get key (job jr, heap jr) w in
  let jr := set_obj o jr in
  match err with
  | Some e =>
      if negb (IsNotFound e) then (OperationResultNone, Some e, jr, w)
      else
        let '(err, jr) := mutate f key jr in
        match err with
        | Some e => (OperationResultNone, Some e, jr, w)
        | None =>
            let '(err, o, w) := Create (job jr, heap jr) w in
            let jr := set_obj o jr in
            match err with
            | Some e => (OperationResultNone, Some e, jr, w)
            | None => (OperationResultCreated, None, jr, w)
            end
        end
  | None =>
      let existing := snapshot jr in
      let '(err, jr) := mutate f key jr in
      match err with
      | Some e => (OperationResultNone, Some e, jr, w)
      | None =>
          if DeepEqual existing (snapshot jr)
          then (OperationResultNone, None, jr, w)
          else
            let '(err, o, w) := Update (job jr, heap jr) w in
            let jr := set_obj o jr in
            match err with
            | Some e => (OperationResultNone, Some e, jr, w)
            | None => (OperationResultUpdated, None, jr, w)
            end
      end
  end.

(** [func (jr *JobReconciler) Reconcile].  The result is the pair that the
    method returns, with the reconciler and the cluster as they are left;
    [None] is the panic of [*jr.job.Spec.BackoffLimit] on a nil pointer. *)
Definition Reconcile (jr : JobReconciler) (w : W)
    : option ((bool * option Error) * JobReconciler * W) :=
  let '(op, err, jr, w) := CreateOrUpdate Apply jr w in
  match err with
  | Some e => Some ((false, Some e), log_Error e "job reconcile failed" jr, w)
  | None =>
      match JobSpec.BackoffLimit (Job.Spec (job jr)) with
      | None => None
      | Some backoffLimit =>
          if decide (JobStatus.Failed (Job.Status (job jr)) >= backoffLimit)
          then
            let jr := log_Info "deleting job -- backoff limit exceeded" [] jr in
            let '(err, w) :=
              Delete (job jr, heap jr)
                [PropagationPolicy DeletePropagationBackground] w in
            Some ((false, err), jr, w)
          else
            let jr :=
              log_Info "job reconciled"
                [("operation", OperationResult_string op)] jr in
            Some ((true, None), jr, w)
      end
  end.

(** What [Reconcile] does once [CreateOrUpdate] has come back. *)
Definition abandon (jr : JobReconciler) (w : W)
    : (bool * option Error) * JobReconciler * W :=
  let r :=
    Delete (job jr, heap jr)
      [PropagationPolicy DeletePropagationBackground] w in
  ((false, r.1),
   log_Info "deleting job -- backoff limit exceeded" [] jr, r.2).

Definition keep (op : OperationResult) (jr : JobReconciler) (w : W)
    : (bool * option Error) * JobReconciler * W :=
  ((true, None),
   log_Info "job reconciled" [("operation", OperationResult_string op)] jr,
   w).

(** A client whose [Create] and [Update] hand back the retry budget that
    they were sent. *)
Definition keeps_backoff_limit : Prop :=
  ∀ (o o' : Job.t * Heap) (w w' : W),
    (Create o w = (None, o', w') ∨ Update o w = (None, o', w')) →
    JobSpec.BackoffLimit (Job.Spec o'.1) = JobSpec.BackoffLimit (Job.Spec o.1).

(** The sentence of the specification on the retry budget, for one
    reconciler and one cluster: after a successful create-or-update that
    leaves the budget 2, a failed count of 2 makes [Reconcile] return
    [(false, nil)], and a failed count of 1 makes it return
    [(true, nil)]. *)
Definition retry_budget_claim (jr : JobReconciler) (w : W) : Prop :=
  ∀ op jr1 w1,
    CreateOrUpdate Apply jr w = (op, None, jr1, w1) →
    JobSpec.BackoffLimit (Job.Spec (job jr1)) = Some 2 →
    (JobStatus.Failed (Job.Status (job jr1)) = 2 →
     ∃ jr2 w2, Reconcile jr w = Some ((false, None), jr2, w2))
    ∧ (JobStatus.Failed (Job.Status (job jr1)) = 1 →
       ∃ jr2 w2, Reconcile jr w = Some ((true, None), jr2, w2)).

End WithClient.

End Reconciler.

(** ** A small cluster to run the reconciler against *)

Module Sample.

(** An owner is its metadata and its Go type; a scheme lists the types it
    knows with their API version and kind. *)
Record OwnerObject := {
  owner_type : string;
  owner_meta : ObjectMeta.t;
  owner_uid : string
}.

(** Modelled from the spec: the ownership registrar
    [setOwnerReference(owner, dependent) -> error] of section 6, which is
    controller-runtime code outside this repository: it fails when the
    scheme does not know the owner's type or when another controller owns
    the dependent, and otherwise records the owner as the controller. *)
Definition set_controller_reference (o : OwnerObject) (m : ObjectMeta.t)
    (sch : gmap string (string * string)) : Error + ObjectMeta.t :=
  match sch !! owner_type o with
  | None => inl (ErrOther "no kind is registered for the owner type")
  | Some (apiVersion, kind) =>
      let ref :=
        OwnerReference.mk apiVersion kind (ObjectMeta.Name (owner_meta o))
          (owner_uid o) (Some true) (Some true) in
      let others :=
        filter (λ r, OwnerReference.Controller r = Some true
                     ∧ OwnerReference.UID r ≠ owner_uid o)
          (ObjectMeta.OwnerReferences m) in
      match others with
      | _ :: _ => inl ErrAlreadyOwned
      | [] =>
          inr (ObjectMeta.mk (ObjectMeta.Name m) (ObjectMeta.Namespace m)
                 (ObjectMeta.Labels m)
                 (filter (λ r, OwnerReference.UID r ≠ owner_uid o)
                    (ObjectMeta.OwnerReferences m) ++ [ref])%list)
      end
  end.

#[export] Instance platform : Platform := {|
  Owner := OwnerObject;
  Scheme := gmap string (string * string);
  SetControllerReference := set_controller_reference
|}.

(** Modelled from the spec: the helper [envFromSecret] of this package,
    which is declared in a file that is not under src/ (section 4.1): a
    binding that reads [variableName] out of the secret [secretRef], and
    is marked optional or not. *)
Definition env_from_secret (secretRef variableName : string)
    (optional : bool) : EnvVar.t :=
  EnvVar.mk variableName ""
    (Some (EnvVarSource.mk
       (Some (SecretKeySelector.mk secretRef variableName (Some optional))))).

#[export] Instance constants : Constants := {|
  mountPath := "/data";
  dataVolumeName := "data";
  resticCacheMountPath := "/cache";
  resticCache := "cache";
  rcloneSecret := "rclone-secret";
  RsyncContainerImage := "quay.io/backube/scribe-mover-rsync:latest";
  ResticContainerImage := "quay.io/backube/scribe-mover-restic:latest";
  RcloneContainerImage := "quay.io/backube/scribe-mover-rclone:latest";
  envFromSecret := env_from_secret
|}.

(** What the cluster was asked to do. *)
Inductive ApiCall :=
  | CallGet (key : ObjectKey)
  | CallCreate (key : ObjectKey)
  | CallUpdate (key : ObjectKey)
  | CallDelete (key : ObjectKey) (opts : list DeleteOption).

(** The cluster: the stored Job (with the elements of its container list),
    the error that the next delete meets, and the calls so far. *)
Record Cluster := {
  stored : option (Job.t * list Container.t);
  delete_error : option Error;
  calls : list ApiCall
}.

Definition record_call (c : ApiCall) (w : Cluster) : Cluster :=
  {| stored := stored w; delete_error := delete_error w;
     calls := (calls w ++ [c])%list |}.

Definition set_stored (s : option (Job.t * list Container.t)) (w : Cluster)
    : Cluster :=
  {| stored := s; delete_error := delete_error w; calls := calls w |}.

Definition zero_status : JobStatus.t := JobStatus.mk 0 0 0.

Definition cluster_get (key : ObjectKey) (o : Job.t * Heap) (w : Cluster)
    : option Error * (Job.t * Heap) * Cluster :=
  let w := record_call (CallGet key) w in
  match stored w with
  | Some (j, cs) =>
      if decide (ObjectKeyFromObject j = key) then
        let '(l, h) := alloc cs o.2 in
        (None,
         (Job.set_PodSpec (PodSpec.set_Containers (Some l) (Job.PodSpec j)) j,
          h), w)
      else (Some ErrNotFound, o, w)
  | None => (Some ErrNotFound, o, w)
  end.

Definition cluster_create (o : Job.t * Heap) (w : Cluster)
    : option Error * (Job.t * Heap) * Cluster :=
  let w := record_call (CallCreate (ObjectKeyFromObject o.1)) w in
  match stored w with
  | Some _ => (Some ErrConflict, o, w)
  | None =>
      let j := Job.set_Status zero_status o.1 in
      (None, (j, o.2),
       set_stored (Some (j, deref o.2 (PodSpec.Containers (Job.PodSpec j))))
         w)
  end.

Definition cluster_update (o : Job.t * Heap) (w : Cluster)
    : option Error * (Job.t * Heap) * Cluster :=
  let w := record_call (CallUpdate (ObjectKeyFromObject o.1)) w in
  match stored w with
  | Some (old, _) =>
      if decide (ObjectKeyFromObject old = ObjectKeyFromObject o.1) then
        let j := Job.set_Status (Job.Status old) o.1 in
        (None, (j, o.2),
         set_stored (Some (j, deref o.2 (PodSpec.Containers (Job.PodSpec j))))
           w)
      else (Some ErrNotFound, o, w)
  | None => (Some ErrNotFound, o, w)
  end.

Definition cluster_delete (o : Job.t * Heap) (opts : list DeleteOption)
    (w : Cluster) : option Error * Cluster :=
  let w := record_call (CallDelete (ObjectKeyFromObject o.1) opts) w in
  match delete_error w with
  | Some e => (Some e, w)
  | None => (None, set_stored None w)
  end.

#[export] Instance cluster_client : Client Cluster := {|
  Get := cluster_get;
  Create := cluster_create;
  Update := cluster_update;
  Delete := cluster_delete
|}.


(** The owner, the scheme that knows its type, and the Job of a source
    mover, as the caller hands it over and as the cluster stores it after
    [failed] failed attempts, with a label and a container that somebody
    else put there. *)
Definition replication_source : OwnerObject := {|
  owner_type := "ReplicationSource";
  owner_meta := ObjectMeta.mk "database" "apps" None [];
  owner_uid := "5c1f7b7e"
|}.

Definition scheme_with_scribe : gmap string (string * string) :=
  {[ "ReplicationSource" := ("scribe.backube/v1alpha1", "ReplicationSource") ]}.

Definition job_key : ObjectKey := ("apps", "scribe-rsync-src-database").

Definition empty_job : Job.t :=
  Job.mk (ObjectMeta.mk "scribe-rsync-src-database" "apps" None [])
    (JobSpec.mk None None None zero_PodTemplateSpec)
    zero_status.

Definition sidecar : Container.t :=
  Container.mk "sidecar" "example.org/sidecar:1" [] [] [] [] None.

Definition stored_job (failed : Z) : Job.t :=
  Job.mk (ObjectMeta.mk "scribe-rsync-src-database" "apps" None [])
    (JobSpec.mk (Some 1) (Some 1) (Some 2)
       (PodTemplateSpec.mk
          (ObjectMeta.mk "" "" (Some {["a" := "1"]}) [])
          (PodSpec.mk [] None "Never" "default" "ClusterFirst"
             "default-scheduler")))
    (JobStatus.mk 0 0 failed).

Definition cluster_with (failed : Z) (delete_err : option Error) : Cluster :=
  {| stored := Some (stored_job failed, [sidecar]);
     delete_error := delete_err;
     calls := [] |}.

Definition empty_cluster : Cluster :=
  {| stored := None; delete_error := None; calls := [] |}.

(** A reconciler for the source side of an rsync mover, with the label
    [b = 2] wanted on the pods. *)
Definition fresh_reconciler : JobReconciler :=
  NewJobReconciler [] scheme_with_scribe replication_source empty_job [].

Definition rsync_reconciler : JobReconciler :=
  ConfigureRsync (Some {["b" := "2"]}) true "database-data" "rsync-keys"
    fresh_reconciler.

(** The same reconciler holding the live Job, as it does between the fetch
    and the merge. *)
Definition rsync_reconciler_live : JobReconciler :=
  set_job (stored_job 0) rsync_reconciler.

(** A reconciler whose scheme does not know the type of the owner, so that
    the owner reference cannot be set. *)
Definition unregistered_reconciler : JobReconciler :=
  ConfigureRsync (Some {["b" := "2"]}) true "database-data" "rsync-keys"
    (NewJobReconciler [] ∅ replication_source empty_job []).

(** The reconciler and the cluster after a first [Reconcile] that created
    the Job. *)
Definition after_first_reconcile : JobReconciler * Cluster :=
  match Reconcile rsync_reconciler empty_cluster with
  | Some (_, jr, w) => (jr, w)
  | None => (rsync_reconciler, empty_cluster)
  end.

(** The containers that the cluster stores. *)
Definition stored_containers (w : Cluster) : list Container.t :=
  match stored w with
  | Some (_, cs) => cs
  | None => []
  end.

(** Another actor changes the image of the stored containers. *)
Definition outside_image : string := "example.org/evil:1".

Definition outside_change (w : Cluster) : Cluster :=
  match stored w with
  | Some (j, cs) =>
      set_stored (Some (j, Container.set_Image outside_image <$> cs)) w
  | None => w
  end.

(** Another actor changes the service account of the stored Job. *)
Definition outside_account : string := "intruder".

Definition outside_change_account (w : Cluster) : Cluster :=
  match stored w with
  | Some (j, cs) =>
      set_stored
        (Some (Job.set_PodSpec
                 (PodSpec.set_ServiceAccountName outside_account
                    (Job.PodSpec j)) j, cs)) w
  | None => w
  end.

(** The service account that the cluster stores. *)
Definition stored_account (w : Cluster) : option string :=
  (λ s, PodSpec.ServiceAccountName (Job.PodSpec s.1)) <$> stored w.

(** The rsync reconciler with a service account of its own. *)
Definition mover_reconciler : JobReconciler :=
  SetServiceAccount "mover" rsync_reconciler.

(** A [Get] that decodes the stored Job into the object it is given, the
    way a JSON decoder fills a struct: a slice whose backing array has the
    length of the stored list is filled in place, element by element, and
    keeps its header; otherwise a new array is allocated, as [cluster_get]
    always does. *)
Definition inplace_get (key : ObjectKey) (o : Job.t * Heap) (w : Cluster)
    : option Error * (Job.t * Heap) * Cluster :=
  let w := record_call (CallGet key) w in
  match stored w with
  | Some (j, cs) =>
      if decide (ObjectKeyFromObject j = key) then
        match PodSpec.Containers (Job.PodSpec o.1) with
        | Some l =>
            match o.2 !! l with
            | Some old =>
                if decide (length old = length cs) then
                  (None,
                   (Job.set_PodSpec
                      (PodSpec.set_Containers (Some l) (Job.PodSpec j)) j,
                    <[l := cs]> o.2), w)
                else
                  let '(l', h) := alloc cs o.2 in
                  (None,
                   (Job.set_PodSpec
                      (PodSpec.set_Containers (Some l') (Job.PodSpec j)) j,
                    h), w)
            | None =>
                let '(l', h) := alloc cs o.2 in
                (None,
                 (Job.set_PodSpec
                    (PodSpec.set_Containers (Some l') (Job.PodSpec j)) j,
                  h), w)
            end
        | None =>
            let '(l', h) := alloc cs o.2 in
            (None,
             (Job.set_PodSpec
                (PodSpec.set_Containers (Some l') (Job.PodSpec j)) j,
              h), w)
        end
      else (Some ErrNotFound, o, w)
  | None => (Some ErrNotFound, o, w)
  end.

(** The sample cluster behind a client that decodes in place. *)
Definition inplace_client : Client Cluster := {|
  Get := inplace_get;
  Create := cluster_create;
  Update := cluster_update;
  Delete := cluster_delete
|}.

End Sample.

(** * Properties *)

Section BuilderProperties.
Context `{Platform} `{Constants}.

(** ** The store of container arrays *)

Lemma deref_alloc (cs : list Container.t) (h : Heap) :
  deref (alloc cs h).2 (Some (alloc cs h).1) = cs.
Proof.
  unfold alloc, deref; simpl.
  rewrite lookup_app_r by lia.
  by rewrite Nat.sub_diag.
Qed.

(** What [assign_desired_spec] leaves in the reconciler: the pod spec is
    the literal, with every unnamed field at its zero value, and the
    labels of the template stay. *)
Lemma assign_desired_spec_spec c vs (jr : JobReconciler) :
  PodTemplateSpec.Spec (desired (assign_desired_spec c vs jr))
  = PodSpec.mk vs (Some (length (heap jr))) "" "" "" "".
Proof. reflexivity. Qed.

Lemma assign_desired_spec_heap c vs (jr : JobReconciler) :
  heap (assign_desired_spec c vs jr) = (heap jr ++ [[c]])%list.
Proof. reflexivity. Qed.

Lemma assign_desired_spec_containers c vs (jr : JobReconciler) :
  desired_containers (assign_desired_spec c vs jr) = [c].
Proof. exact (deref_alloc [c] (heap jr)). Qed.

(** Every builder ends in the assignment of the whole pod spec. *)
Lemma run_builder_assign (b : BuilderCall) (jr : JobReconciler) :
  ∃ c vs jr0,
    run_builder b jr = assign_desired_spec c vs jr0
    ∧ heap jr0 = heap jr
    ∧ (∃ mounts, Container.VolumeMounts c
                 = VolumeMount.mk dataVolumeName mountPath :: mounts)
    ∧ (∃ vs', vs = pvc_volume dataVolumeName (data_claim b) :: vs').
Proof.
  destruct b; simpl;
    unfold ConfigureRsync, ConfigureRestic, ConfigureRclone;
    (eexists _, _, _; split; [reflexivity|]); simpl; eauto.
Qed.

(** ** The builders *)

(** C4.  For each of the three builders and all parameters, the desired
    template that the builder leaves holds exactly one container; the first
    volume mount of that container puts the data volume at [mountPath],
    the same path for every profile, and the first volume of the template
    is the data volume, backed by the claim that the caller named. *)
Theorem builders_one_container_data_mount (b : BuilderCall)
    (jr : JobReconciler) :
  ∃ c mounts vols,
    desired_containers (run_builder b jr) = [c]
    ∧ length (desired_containers (run_builder b jr)) = 1%nat
    ∧ Container.VolumeMounts c
      = VolumeMount.mk dataVolumeName mountPath :: mounts
    ∧ PodSpec.Volumes (PodTemplateSpec.Spec (desired (run_builder b jr)))
      = pvc_volume dataVolumeName (data_claim b) :: vols.
Proof.
  destruct (run_builder_assign b jr)
    as (c & vs & jr0 & -> & _ & [mounts Hm] & [vols ->]).
  exists c, mounts, vols.
  rewrite assign_desired_spec_containers.
  repeat split; done.
Qed.

(** The three action constants are three different strings. *)
Lemma ResticAction_distinct :
  BackupOnly ≠ BackupAndPrune ∧ BackupOnly ≠ Restore
  ∧ BackupAndPrune ≠ Restore.
Proof. repeat split; discriminate. Qed.

Lemma restic_actions_cases (action : ResticAction) :
  restic_actions action
  = if decide (action = Restore) then ["restore"]
    else if decide (action = BackupAndPrune) then ["backup"; "prune"]
    else ["backup"].
Proof. unfold restic_actions. repeat case_decide; done. Qed.

(** C6.  The container that [ConfigureRestic] builds has the arguments
    [["backup"]] for [BackupOnly], [["backup"; "prune"]], in this order,
    for [BackupAndPrune] and [["restore"]] for [Restore]; the three
    actions are different values and the three argument lists differ, and
    whatever the action, the arguments are one of the three lists: exactly
    one of the three is selected. *)
Theorem ConfigureRestic_args
    (forgetOptions dataPVCName cachePVCName resticSecretName : string)
    (jr : JobReconciler) :
  let args action :=
    Container.Args <$>
      desired_containers
        (ConfigureRestic action forgetOptions dataPVCName cachePVCName
           resticSecretName jr) in
  args BackupOnly = [["backup"]]
  ∧ args BackupAndPrune = [["backup"; "prune"]]
  ∧ args Restore = [["restore"]]
  ∧ (BackupOnly ≠ BackupAndPrune ∧ BackupOnly ≠ Restore
     ∧ BackupAndPrune ≠ Restore)
  ∧ (args BackupOnly ≠ args BackupAndPrune
     ∧ args BackupOnly ≠ args Restore
     ∧ args BackupAndPrune ≠ args Restore)
  ∧ (∀ action,
       args action = [["backup"]]
       ∨ args action = [["backup"; "prune"]]
       ∨ args action = [["restore"]]).
Proof.
  intros args.
  assert (Hargs : ∀ a, args a = [restic_actions a]).
  { intros a. unfold args, ConfigureRestic.
    by rewrite assign_desired_spec_containers. }
  split_and!; rewrite ?Hargs; try apply ResticAction_distinct;
    try discriminate; try reflexivity.
  intros action. rewrite Hargs, restic_actions_cases.
  repeat case_decide; auto.
Qed.

(** C7.  The container that [ConfigureRsync] builds runs the source script
    when [isSource] is true and the destination script when it is false. *)
Theorem ConfigureRsync_command (labels : option (gmap string string))
    (dataPVCName sshSecretName : string) (jr : JobReconciler) :
  let command isSource :=
    Container.Command <$>
      desired_containers
        (ConfigureRsync labels isSource dataPVCName sshSecretName jr) in
  command true = [["/bin/bash"; "-c"; "/source.sh"]]
  ∧ command false = [["/bin/bash"; "-c"; "/destination.sh"]].
Proof.
  intros command. unfold command, ConfigureRsync.
  by rewrite !assign_desired_spec_containers.
Qed.

(** C8, as the code has it.  The container that [ConfigureRsync] builds
    has a security context whose run-as user is the numeric user 0, that
    is root, with no [RunAsNonRoot] and no [Privileged] setting, and that
    adds exactly the two capabilities AUDIT_WRITE and SYS_CHROOT and
    drops none. *)
Theorem ConfigureRsync_security_context
    (labels : option (gmap string string)) (isSource : bool)
    (dataPVCName sshSecretName : string) (jr : JobReconciler) :
  Container.SecurityContext <$>
    desired_containers
      (ConfigureRsync labels isSource dataPVCName sshSecretName jr)
  = [ Some {| SecurityContext.Capabilities :=
                Some {| Capabilities.Add := ["AUDIT_WRITE"; "SYS_CHROOT"];
                        Capabilities.Drop := [] |};
              SecurityContext.Privileged := None;
              SecurityContext.RunAsUser := Some 0;
              SecurityContext.RunAsNonRoot := None |} ].
Proof.
  unfold ConfigureRsync.
  by rewrite assign_desired_spec_containers.
Qed.

End BuilderProperties.

Section ApplyProperties.
Context `{Platform} `{Constants}.

(** ** The label loop *)

Lemma merge_fold_union (want live : gmap string string) :
  map_fold (λ k v acc, <[k:=v]> acc) live want = want ∪ live.
Proof.
  apply (map_fold_weak_ind (λ r m, r = m ∪ live)).
  - by rewrite (left_id_L ∅ (∪)).
  - intros k v m r _ ->. by rewrite insert_union_l.
Qed.

Lemma merge_labels_union (want live : option (gmap string string)) :
  merge_labels want live = Some (default ∅ want ∪ default ∅ live).
Proof.
  unfold merge_labels. rewrite merge_fold_union.
  by destruct live.
Qed.

(** ** The shape of a successful [Apply] *)

Lemma Apply_inr (jr : JobReconciler) (meta : ObjectMeta.t) :
  SetControllerReference (owner jr) (Job.ObjectMeta (job jr)) (scheme jr)
  = inr meta →
  Apply jr = (None, set_job (applied_job meta jr) jr).
Proof. intros Hm. unfold Apply. by rewrite Hm. Qed.

Lemma Apply_inl (jr : JobReconciler) (err : Error) :
  SetControllerReference (owner jr) (Job.ObjectMeta (job jr)) (scheme jr)
  = inl err →
  Apply jr
  = (Some err, log_Error err "unable to set controller reference" jr).
Proof. intros Hm. unfold Apply. by rewrite Hm. Qed.

Lemma Apply_None_inv (jr jr' : JobReconciler) :
  Apply jr = (None, jr') →
  ∃ meta,
    SetControllerReference (owner jr) (Job.ObjectMeta (job jr)) (scheme jr)
    = inr meta
    ∧ jr' = set_job (applied_job meta jr) jr.
Proof.
  destruct (SetControllerReference (owner jr) (Job.ObjectMeta (job jr))
              (scheme jr)) as [err|meta] eqn:Hm.
  - rewrite (Apply_inl _ _ Hm). discriminate.
  - rewrite (Apply_inr _ _ Hm). intros [= <-]. eauto.
Qed.

(** A successful [Apply] always leaves the retry budget 2 and the restart
    policy "Never". *)
Lemma Apply_backoff_limit (jr jr' : JobReconciler) :
  Apply jr = (None, jr') →
  JobSpec.BackoffLimit (Job.Spec (job jr')) = Some 2
  ∧ PodSpec.RestartPolicy (Job.PodSpec (job jr')) = RestartPolicyNever.
Proof. intros (meta & _ & ->)%Apply_None_inv. done. Qed.

(** C2.  When [Apply] succeeds, the labels of the Job's template are the
    live labels with every desired entry written over them: each desired
    key is there with its desired value, every key that the live template
    had is still there, and no other key appears.  Live labels [{a:1}] and
    desired labels [{b:2}] give [{a:1, b:2}]. *)
Theorem Apply_merges_labels (jr jr' : JobReconciler) :
  Apply jr = (None, jr') →
  let live := default ∅ (PodTemplateSpec.Labels (Job.Template (job jr))) in
  let want := default ∅ (PodTemplateSpec.Labels (desired jr)) in
  ∃ merged : gmap string string,
    PodTemplateSpec.Labels (Job.Template (job jr')) = Some merged
    ∧ merged = want ∪ live
    ∧ (∀ k v, want !! k = Some v → merged !! k = Some v)
    ∧ (∀ k, is_Some (live !! k) → is_Some (merged !! k))
    ∧ (∀ k v, merged !! k = Some v →
         want !! k = Some v ∨ live !! k = Some v)
    ∧ (live = {["a" := "1"]} → want = {["b" := "2"]} →
       merged = {["a" := "1"; "b" := "2"]}).
Proof.
  intros (meta & _ & ->)%Apply_None_inv live want.
  exists (want ∪ live). split_and!.
  - unfold want, live. rewrite <- merge_labels_union. reflexivity.
  - done.
  - intros k v Hk. by apply lookup_union_Some_l.
  - intros k Hk. apply lookup_union_is_Some. by right.
  - intros k v Hk. apply lookup_union_Some_raw in Hk. tauto.
  - intros -> ->. apply map_eq. intros k.
    rewrite lookup_union.
    destruct (decide (k = "a")) as [->|Ha]; [done|].
    destruct (decide (k = "b")) as [->|Hb]; [done|].
    rewrite lookup_insert_ne by done.
    by rewrite !lookup_singleton_ne by done.
Qed.

(** When [Apply] succeeds, the container slice, the volume list and the
    service-account name of the Job's template are those of the desired
    template, whatever the Job held before; the Job's containers are the
    desired containers, in the same array. *)
Lemma Apply_copies_owned_fields (jr jr' : JobReconciler) :
  Apply jr = (None, jr') →
  let d := PodTemplateSpec.Spec (desired jr) in
  let p := Job.PodSpec (job jr') in
  PodSpec.Containers p = PodSpec.Containers d
  ∧ PodSpec.Volumes p = PodSpec.Volumes d
  ∧ PodSpec.ServiceAccountName p = PodSpec.ServiceAccountName d
  ∧ job_containers jr' = desired_containers jr
  ∧ desired jr' = desired jr.
Proof. intros (meta & Hm & ->)%Apply_None_inv d p. by split_and!. Qed.

(** C5.  When [Apply] succeeds after [SetPause b], the parallelism of the
    Job is 0 if [b] is true and 1 if it is false, so it is one of the two;
    and the flag decides nothing else: with the other value of the flag
    [Apply] succeeds too, and leaves the same reconciler and the same Job
    except for the flag and the parallelism. *)
Theorem Apply_pause_gate (b : bool) (jr jr' : JobReconciler) :
  Apply (SetPause b jr) = (None, jr') →
  JobSpec.Parallelism (Job.Spec (job jr')) = Some (if b then 0 else 1)
  ∧ (JobSpec.Parallelism (Job.Spec (job jr')) = Some 0
     ∨ JobSpec.Parallelism (Job.Spec (job jr')) = Some 1)
  ∧ ∀ b2,
      Apply (SetPause b2 jr)
      = (None,
         SetPause b2
           (set_job
              (Job.set_Spec
                 (JobSpec.set_Parallelism (Some (if b2 then 0 else 1))
                    (Job.Spec (job jr')))
                 (job jr'))
              jr')).
Proof.
  intros (meta & Hm & ->)%Apply_None_inv.
  split_and!.
  - done.
  - simpl. destruct b; auto.
  - intros b2. by rewrite (Apply_inr (SetPause b2 jr) meta).
Qed.

End ApplyProperties.

Section SetterProperties.
Context `{Platform} `{Constants}.

(** ** Reconcilers on which a builder has run *)

Lemma AddEnv_Some (name value : string) (jr : JobReconciler) l c cs :
  PodSpec.Containers (PodTemplateSpec.Spec (desired jr)) = Some l →
  heap jr !! l = Some (c :: cs) →
  AddEnv name value jr
  = Some (set_heap (<[l := with_env name value c :: cs]> (heap jr)) jr).
Proof. intros Hl Hc. unfold AddEnv. by rewrite Hl, Hc. Qed.

Lemma AddEnv_Some_inv (name value : string) (jr jr' : JobReconciler) :
  AddEnv name value jr = Some jr' →
  ∃ l c cs,
    PodSpec.Containers (PodTemplateSpec.Spec (desired jr)) = Some l
    ∧ heap jr !! l = Some (c :: cs)
    ∧ jr' = set_heap (<[l := with_env name value c :: cs]> (heap jr)) jr.
Proof.
  unfold AddEnv.
  destruct (PodSpec.Containers _) as [l|]; [|discriminate].
  destruct (heap jr !! l) as [[|c cs]|] eqn:Hc; try discriminate.
  intros [= <-]. by exists l, c, cs.
Qed.

Lemma AddEnv_empty (name value : string) (jr : JobReconciler) :
  desired_containers jr = [] → AddEnv name value jr = None.
Proof.
  unfold desired_containers, deref, AddEnv.
  destruct (PodSpec.Containers _) as [l|]; [|done].
  destruct (heap jr !! l) as [[|c cs]|]; simpl; done.
Qed.

(** Every builder is the assignment of a pod spec that its arguments
    determine, after at most a change of the template's labels. *)
Lemma run_builder_shape (b : BuilderCall) :
  ∃ c vs (pre : ObjectMeta.t → ObjectMeta.t),
    ∀ jr : JobReconciler,
      run_builder b jr
      = assign_desired_spec c vs
          (set_desired
             (PodTemplateSpec.set_ObjectMeta
                (pre (PodTemplateSpec.ObjectMeta (desired jr))) (desired jr))
             jr).
Proof.
  destruct b; simpl.
  - eexists _, _, (ObjectMeta.set_Labels labels). intros jr.
    reflexivity.
  - eexists _, _, id. intros jr. reflexivity.
  - eexists _, _, id. intros jr. reflexivity.
Qed.

Lemma assign_desired_spec_single c vs (jr : JobReconciler) :
  PodSpec.Containers
    (PodTemplateSpec.Spec (desired (assign_desired_spec c vs jr)))
  = Some (length (heap jr))
  ∧ heap (assign_desired_spec c vs jr) !! length (heap jr) = Some [c].
Proof.
  split; [done|].
  rewrite assign_desired_spec_heap. by apply list_lookup_middle.
Qed.

(** Once a builder has run, the desired template holds one container. *)
Lemma Configured_single (jr : JobReconciler) :
  Configured jr →
  ∃ l c,
    PodSpec.Containers (PodTemplateSpec.Spec (desired jr)) = Some l
    ∧ heap jr !! l = Some [c].
Proof.
  induction 1 as [b jr|p jr _ IH|sa jr _ IH|n v jr jr' _ IH Hadd|jr _ IH].
  - destruct (run_builder_shape b) as (c & vs & pre & ->).
    eexists _, c. apply assign_desired_spec_single.
  - exact IH.
  - exact IH.
  - destruct IH as (l & c & Hl & Hc).
    rewrite (AddEnv_Some n v jr l c [] Hl Hc) in Hadd.
    injection Hadd as <-.
    exists l, (with_env n v c). split; [done|]. simpl.
    apply list_lookup_insert_eq. by eapply lookup_lt_Some.
  - destruct IH as (l & c & Hl & Hc). exists l, c.
    unfold Apply.
    by destruct (SetControllerReference _ _ _).
Qed.

(** After [Apply] the Job and the desired template share one container
    array, so a binding that [AddEnv] adds then shows in the Job's
    containers as well. *)
Lemma AddEnv_after_Apply_shared (name value : string)
    (jr jr1 jr2 : JobReconciler) :
  Apply jr = (None, jr1) →
  AddEnv name value jr1 = Some jr2 →
  job_containers jr2 = desired_containers jr2.
Proof.
  intros (meta & _ & ->)%Apply_None_inv.
  by intros (l & c & cs & _ & _ & ->)%AddEnv_Some_inv.
Qed.

(** C9.  [AddEnv] on a reconciler whose desired template has no container
    panics on the index 0; this is so for a reconciler fresh from
    [NewJobReconciler].  Once a builder has run, [AddEnv] returns, and the
    only thing it changes is element 0 of the array of the desired
    containers: the single container gets its environment extended by
    exactly the binding [name = value] at the end, and every other array,
    the template, the Job record, the flag, the owner and the log are as
    before. *)
Theorem AddEnv_first_container (name value : string) (jr : JobReconciler) :
  (desired_containers jr = [] → AddEnv name value jr = None)
  ∧ (∀ lg sch own j h,
       AddEnv name value (NewJobReconciler lg sch own j h) = None)
  ∧ (Configured jr →
     ∃ l c,
       PodSpec.Containers (PodTemplateSpec.Spec (desired jr)) = Some l
       ∧ desired_containers jr = [c]
       ∧ AddEnv name value jr
         = Some (set_heap (<[l := [with_env name value c]]> (heap jr)) jr)
       ∧ desired_containers
           (set_heap (<[l := [with_env name value c]]> (heap jr)) jr)
         = [with_env name value c]
       ∧ Container.Env (with_env name value c)
         = (Container.Env c ++ [EnvVar.mk name value None])%list
       ∧ ∀ l', l' ≠ l →
           (<[l := [with_env name value c]]> (heap jr)) !! l'
           = heap jr !! l').
Proof.
  split_and!.
  - apply AddEnv_empty.
  - done.
  - intros (l & c & Hl & Hc)%Configured_single.
    exists l, c. split_and!.
    + done.
    + unfold desired_containers. rewrite Hl. simpl. by rewrite Hc.
    + by apply AddEnv_Some.
    + unfold desired_containers. simpl. rewrite Hl. simpl.
      rewrite list_lookup_insert_eq; [done|]. by eapply lookup_lt_Some.
    + done.
    + intros l' Hne. by apply list_lookup_insert_ne.
Qed.

(** C10.  A builder assigns the whole desired pod spec: the containers and
    the other fields of the pod spec that it leaves are the same from every
    earlier state of the reconciler, and whatever pod spec the template
    held before makes no difference to the reconciler it leaves.  So a
    service account set before the builder is gone (the name is empty
    afterwards), and so is a binding added by [AddEnv]; set after the
    builder they are there.  Setter and builder do not commute. *)
Theorem builder_discards_earlier_setters (b : BuilderCall)
    (jr : JobReconciler) (saName name value : string) :
  (∀ jr' : JobReconciler,
     desired_containers (run_builder b jr')
     = desired_containers (run_builder b jr)
     ∧ PodSpec.set_Containers None
         (PodTemplateSpec.Spec (desired (run_builder b jr')))
       = PodSpec.set_Containers None
           (PodTemplateSpec.Spec (desired (run_builder b jr))))
  ∧ (∀ sp,
       run_builder b
         (set_desired (PodTemplateSpec.set_Spec sp (desired jr)) jr)
       = run_builder b jr)
  ∧ run_builder b (SetServiceAccount saName jr) = run_builder b jr
  ∧ PodSpec.ServiceAccountName
      (PodTemplateSpec.Spec
         (desired (run_builder b (SetServiceAccount saName jr)))) = ""
  ∧ (∀ jr1, AddEnv name value jr = Some jr1 →
       desired (run_builder b jr1) = desired (run_builder b jr)
       ∧ desired_containers (run_builder b jr1)
         = desired_containers (run_builder b jr))
  ∧ PodSpec.ServiceAccountName
      (PodTemplateSpec.Spec
         (desired (SetServiceAccount saName (run_builder b jr)))) = saName
  ∧ (∃ c jr2,
       desired_containers (run_builder b jr) = [c]
       ∧ AddEnv name value (run_builder b jr) = Some jr2
       ∧ desired_containers jr2 = [with_env name value c])
  ∧ (saName ≠ "" →
     run_builder b (SetServiceAccount saName jr)
     ≠ SetServiceAccount saName (run_builder b jr))
  ∧ (∀ jr1, AddEnv name value jr = Some jr1 →
       Some (run_builder b jr1) ≠ AddEnv name value (run_builder b jr)).
Proof.
  destruct (run_builder_shape b) as (c & vs & pre & Hb).
  assert (Hadd : AddEnv name value (run_builder b jr)
                 = Some (set_heap
                           (<[length (heap jr) := [with_env name value c]]>
                              (heap (run_builder b jr)))
                           (run_builder b jr))).
  { rewrite Hb.
    apply AddEnv_Some; [done|].
    rewrite assign_desired_spec_heap. by apply list_lookup_middle. }
  assert (Hafter : desired_containers
                     (set_heap
                        (<[length (heap jr) := [with_env name value c]]>
                           (heap (run_builder b jr)))
                        (run_builder b jr))
                   = [with_env name value c]).
  { rewrite Hb. unfold desired_containers. simpl.
    rewrite list_lookup_insert_eq; [done|].
    rewrite length_app. simpl. lia. }
  assert (Hne : c ≠ with_env name value c).
  { intros Heq. apply (f_equal (λ x, length (Container.Env x))) in Heq.
    simpl in Heq. rewrite length_app in Heq. simpl in Heq. lia. }
  split_and!.
  - intros jr'. rewrite !Hb, !assign_desired_spec_containers.
    by rewrite !assign_desired_spec_spec.
  - intros sp. by rewrite !Hb.
  - by rewrite !Hb.
  - by rewrite Hb.
  - intros jr1 (l & c0 & cs & _ & _ & ->)%AddEnv_Some_inv.
    rewrite !Hb. unfold desired_containers.
    rewrite !assign_desired_spec_spec, !assign_desired_spec_heap. simpl.
    rewrite length_insert. split; [done|].
    rewrite !lookup_app_r by (rewrite ?length_insert; lia).
    by rewrite length_insert.
  - done.
  - exists c. eexists. split_and!; [|exact Hadd|exact Hafter].
    rewrite Hb. apply assign_desired_spec_containers.
  - intros Hsa Heq.
    apply (f_equal (λ r, PodSpec.ServiceAccountName
                           (PodTemplateSpec.Spec (desired r)))) in Heq.
    rewrite Hb in Heq. simpl in Heq. congruence.
  - intros jr1 (l & c0 & cs & _ & _ & ->)%AddEnv_Some_inv.
    rewrite Hadd. intros [= Heq].
    apply (f_equal desired_containers) in Heq.
    rewrite Hafter in Heq. rewrite Hb in Heq.
    rewrite assign_desired_spec_containers in Heq.
    congruence.
Qed.

End SetterProperties.

Section ReconcileProperties.
Context `{Platform} `{Constants} {W : Type} `{Client W}.

(** ** The retry budget *)

Lemma Reconcile_failed (jr : JobReconciler) (w : W) op e jr1 w1 :
  CreateOrUpdate Apply jr w = (op, Some e, jr1, w1) →
  Reconcile jr w
  = Some ((false, Some e), log_Error e "job reconcile failed" jr1, w1).
Proof. intros Hcu. unfold Reconcile. by rewrite Hcu. Qed.

Lemma Reconcile_succeeded (jr : JobReconciler) (w : W) op jr1 w1 limit :
  CreateOrUpdate Apply jr w = (op, None, jr1, w1) →
  JobSpec.BackoffLimit (Job.Spec (job jr1)) = Some limit →
  Reconcile jr w
  = Some (if decide (JobStatus.Failed (Job.Status (job jr1)) >= limit)
          then abandon jr1 w1 else keep op jr1 w1).
Proof.
  intros Hcu Hlimit. unfold Reconcile. rewrite Hcu, Hlimit.
  case_decide; [|done].
  unfold abandon. simpl.
  by destruct (Delete _ _ _).
Qed.

Lemma Reconcile_nil_limit (jr : JobReconciler) (w : W) op jr1 w1 :
  CreateOrUpdate Apply jr w = (op, None, jr1, w1) →
  JobSpec.BackoffLimit (Job.Spec (job jr1)) = None →
  Reconcile jr w = None.
Proof. intros Hcu Hlimit. unfold Reconcile. by rewrite Hcu, Hlimit. Qed.

(** The retry budget that [Reconcile] compares with is the one that
    [Apply] wrote, as long as the client hands it back unchanged. *)
Lemma mutate_Apply_backoff_limit key (jr jr' : JobReconciler) :
  mutate Apply key jr = (None, jr') →
  JobSpec.BackoffLimit (Job.Spec (job jr')) = Some 2.
Proof.
  unfold mutate.
  destruct (Apply jr) as [[e|] jr0] eqn:Ha; [discriminate|].
  case_decide; [|discriminate].
  intros [= <-]. by apply Apply_backoff_limit in Ha as [? _].
Qed.

Lemma CreateOrUpdate_backoff_limit (jr : JobReconciler) (w : W) op jr1 w1 :
  keeps_backoff_limit →
  CreateOrUpdate Apply jr w = (op, None, jr1, w1) →
  JobSpec.BackoffLimit (Job.Spec (job jr1)) = Some 2.
Proof.
  intros Hkeep. unfold CreateOrUpdate.
  destruct (Get _ _ w) as [[[e|] o] w0].
  - destruct (negb (IsNotFound e)); [discriminate|].
    destruct (mutate _ _ _) as [[e'|] jr0] eqn:Hm; [discriminate|].
    apply mutate_Apply_backoff_limit in Hm.
    destruct (Create _ w0) as [[[e'|] o'] w'] eqn:Hc; [discriminate|].
    intros [= _ <- _]. simpl.
    rewrite <- Hm. eapply (Hkeep (job jr0, heap jr0)). by left.
  - destruct (mutate _ _ _) as [[e'|] jr0] eqn:Hm; [discriminate|].
    apply mutate_Apply_backoff_limit in Hm.
    destruct (DeepEqual _ _).
    + by intros [= _ <- _].
    + destruct (Update _ w0) as [[[e'|] o'] w'] eqn:Hc; [discriminate|].
      intros [= _ <- _]. simpl.
      rewrite <- Hm. eapply (Hkeep (job jr0, heap jr0)). by right.
Qed.

(** C1, as the code has it.  Let [CreateOrUpdate] succeed and leave a Job
    with the retry budget 2.  If the Job's failed count is 2, [Reconcile]
    calls [Delete] on the Job with the one option of background
    propagation, on the cluster as [CreateOrUpdate] left it, and returns
    [false] with whatever [Delete] returned: the error of the delete if it
    failed, and nil (that is, [(false, nil)]) if it succeeded.  If the
    failed count is 1, [Reconcile] returns [(true, nil)] and the cluster is
    as [CreateOrUpdate] left it: no delete is issued. *)
Theorem Reconcile_retry_budget (jr : JobReconciler) (w : W) op jr1 w1 :
  CreateOrUpdate Apply jr w = (op, None, jr1, w1) →
  JobSpec.BackoffLimit (Job.Spec (job jr1)) = Some 2 →
  (JobStatus.Failed (Job.Status (job jr1)) = 2 →
   let deleted :=
     Delete (job jr1, heap jr1)
       [PropagationPolicy DeletePropagationBackground] w1 in
   Reconcile jr w
   = Some ((false, deleted.1),
           log_Info "deleting job -- backoff limit exceeded" [] jr1,
           deleted.2)
   ∧ (deleted.1 = None →
      ∃ jr2, Reconcile jr w = Some ((false, None), jr2, deleted.2)))
  ∧ (JobStatus.Failed (Job.Status (job jr1)) = 1 →
     ∃ jr2, Reconcile jr w = Some ((true, None), jr2, w1)
            ∧ job jr2 = job jr1).
Proof.
  intros Hcu Hlimit.
  pose proof (Reconcile_succeeded jr w op jr1 w1 2 Hcu Hlimit) as Hr.
  split.
  - intros Hf deleted. rewrite Hf in Hr.
    rewrite decide_True in Hr by lia.
    split; [exact Hr|].
    intros Hd. eexists. rewrite Hr. unfold abandon.
    fold deleted. by rewrite Hd.
  - intros Hf. rewrite Hf in Hr.
    rewrite decide_False in Hr by lia.
    eexists. split; [exact Hr|done].
Qed.

End ReconcileProperties.

(** * The properties on the sample cluster *)

Section OnTheSampleCluster.
Import Sample.

Lemma sample_cluster_keeps_backoff_limit :
  keeps_backoff_limit (W := Cluster).
Proof.
  intros [j h] [j' h'] w w' [Hc|Hu]; simpl in *.
  - unfold cluster_create in Hc. simpl in Hc.
    destruct (stored w); [discriminate|]. by injection Hc as <- _ _.
  - unfold cluster_update in Hu. simpl in Hu.
    destruct (stored w) as [[old cs]|]; [|discriminate].
    case_decide; [|discriminate]. by injection Hu as <- _ _.
Qed.

Lemma Reconcile_retry_budget_witness :
  (∃ jr2 w2,
     Reconcile rsync_reconciler (cluster_with 2 None)
     = Some ((false, None), jr2, w2)
     ∧ stored w2 = None
     ∧ calls w2
       = [ CallGet job_key; CallUpdate job_key;
           CallDelete job_key
             [PropagationPolicy DeletePropagationBackground] ])
  ∧ (∃ jr2 w2,
       Reconcile rsync_reconciler (cluster_with 1 None)
       = Some ((true, None), jr2, w2)
       ∧ is_Some (stored w2)
       ∧ calls w2 = [CallGet job_key; CallUpdate job_key]).
Proof.
  split.
  - pose (cu := CreateOrUpdate Apply rsync_reconciler (cluster_with 2 None)).
    assert (Hcu : CreateOrUpdate Apply rsync_reconciler (cluster_with 2 None)
                  = (cu.1.1.1, None, cu.1.2, cu.2))
      by (vm_compute; reflexivity).
    assert (Hlimit : JobSpec.BackoffLimit (Job.Spec (job cu.1.2)) = Some 2)
      by (vm_compute; reflexivity).
    assert (Hfailed : JobStatus.Failed (Job.Status (job cu.1.2)) = 2)
      by (vm_compute; reflexivity).
    destruct (Reconcile_retry_budget _ _ _ _ _ Hcu Hlimit) as [Hdel _].
    destruct (Hdel Hfailed) as [_ Hnil].
    destruct Hnil as [jr2 Hr]; [vm_compute; reflexivity|].
    exists jr2. eexists. split; [exact Hr|].
    split; vm_compute; reflexivity.
  - pose (cu := CreateOrUpdate Apply rsync_reconciler (cluster_with 1 None)).
    assert (Hcu : CreateOrUpdate Apply rsync_reconciler (cluster_with 1 None)
                  = (cu.1.1.1, None, cu.1.2, cu.2))
      by (vm_compute; reflexivity).
    assert (Hlimit : JobSpec.BackoffLimit (Job.Spec (job cu.1.2)) = Some 2)
      by (vm_compute; reflexivity).
    assert (Hfailed : JobStatus.Failed (Job.Status (job cu.1.2)) = 1)
      by (vm_compute; reflexivity).
    destruct (Reconcile_retry_budget _ _ _ _ _ Hcu Hlimit) as [_ Hkeep].
    destruct (Hkeep Hfailed) as [jr2 [Hr _]].
    exists jr2. eexists. split; [exact Hr|].
    split; [|vm_compute; reflexivity].
    eexists. vm_compute. reflexivity.
Defined.

Lemma Reconcile_delete_error_counterexample :
  ¬ retry_budget_claim rsync_reconciler
      (cluster_with 2 (Some (ErrOther "connection refused"))).
Proof.
  intros Hclaim.
  pose (w := cluster_with 2 (Some (ErrOther "connection refused"))).
  pose (cu := CreateOrUpdate Apply rsync_reconciler w).
  assert (Hcu : CreateOrUpdate Apply rsync_reconciler w
                = (cu.1.1.1, None, cu.1.2, cu.2))
    by (vm_compute; reflexivity).
  assert (Hlimit : JobSpec.BackoffLimit (Job.Spec (job cu.1.2)) = Some 2)
    by (vm_compute; reflexivity).
  assert (Hfailed : JobStatus.Failed (Job.Status (job cu.1.2)) = 2)
    by (vm_compute; reflexivity).
  destruct (Hclaim _ _ _ Hcu Hlimit) as [Hexhausted _].
  destruct (Hexhausted Hfailed) as (jr2 & w2 & Hr).
  apply (f_equal (option_map (λ r, r.1.1))) in Hr.
  vm_compute in Hr. discriminate Hr.
Qed.

Lemma ConfigureRsync_runs_as_root_counterexample :
  ¬ rsync_unprivileged_claim (Some {["b" := "2"]}) true "database-data"
      "rsync-keys" fresh_reconciler.
Proof.
  intros (c & sc & u & caps & Hc & Hsc & Hu & Hne & _).
  unfold ConfigureRsync in Hc.
  rewrite assign_desired_spec_containers in Hc.
  injection Hc as <-. injection Hsc as <-. injection Hu as <-.
  by apply Hne.
Qed.

Lemma Apply_merges_labels_witness :
  PodTemplateSpec.Labels (Job.Template (job (Apply rsync_reconciler_live).2))
  = Some {["a" := "1"; "b" := "2"]}.
Proof.
  destruct (Apply_merges_labels rsync_reconciler_live
              (Apply rsync_reconciler_live).2 eq_refl)
    as (merged & Hm & _ & _ & _ & _ & Hex).
  rewrite Hm. f_equal. apply Hex; reflexivity.
Defined.

Lemma Apply_pause_gate_witness :
  JobSpec.Parallelism
    (Job.Spec (job (Apply (SetPause true rsync_reconciler_live)).2)) = Some 0
  ∧ JobSpec.Parallelism
      (Job.Spec (job (Apply (SetPause false rsync_reconciler_live)).2))
    = Some 1.
Proof.
  split.
  - exact (proj1 (Apply_pause_gate true rsync_reconciler_live _ eq_refl)).
  - exact (proj1 (Apply_pause_gate false rsync_reconciler_live _ eq_refl)).
Defined.

Lemma AddEnv_first_container_witness :
  AddEnv "RSYNC_OPTS" "-a" fresh_reconciler = None
  ∧ ∃ jr',
      AddEnv "RSYNC_OPTS" "-a" rsync_reconciler = Some jr'
      ∧ Container.Env <$> desired_containers jr'
        = [[EnvVar.mk "RSYNC_OPTS" "-a" None]].
Proof.
  split.
  - exact (proj1 (AddEnv_first_container "RSYNC_OPTS" "-a" fresh_reconciler)
             eq_refl).
  - destruct (AddEnv_first_container "RSYNC_OPTS" "-a" rsync_reconciler)
      as (_ & _ & Hconf).
    destruct (Hconf (Configured_builder
                       (CallRsync (Some {["b" := "2"]}) true "database-data"
                          "rsync-keys") fresh_reconciler))
      as (l & c & _ & Hc & Hadd & Hafter & Henv & _).
    eexists. split; [exact Hadd|].
    rewrite Hafter.
    unfold rsync_reconciler, ConfigureRsync in Hc.
    rewrite assign_desired_spec_containers in Hc.
    injection Hc as <-. reflexivity.
Defined.

Lemma builder_discards_earlier_setters_witness :
  let b := CallRsync (Some {["b" := "2"]}) true "database-data" "rsync-keys" in
  PodSpec.ServiceAccountName
    (PodTemplateSpec.Spec
       (desired (run_builder b (SetServiceAccount "mover" rsync_reconciler))))
  = ""
  ∧ run_builder b (SetServiceAccount "mover" rsync_reconciler)
    ≠ SetServiceAccount "mover" (run_builder b rsync_reconciler)
  ∧ ∃ jr1,
      AddEnv "RSYNC_OPTS" "-a" rsync_reconciler = Some jr1
      ∧ desired_containers (run_builder b jr1)
        = desired_containers (run_builder b rsync_reconciler)
      ∧ Some (run_builder b jr1)
        ≠ AddEnv "RSYNC_OPTS" "-a" (run_builder b rsync_reconciler).
Proof.
  intros b.
  destruct (builder_discards_earlier_setters b rsync_reconciler "mover"
              "RSYNC_OPTS" "-a")
    as (_ & _ & _ & Hsa & Henv & _ & _ & Hne & Hne').
  split; [exact Hsa|]. split; [apply Hne; discriminate|].
  eexists. split; [reflexivity|]. split.
  - apply Henv. reflexivity.
  - apply Hne'. reflexivity.
Defined.

End OnTheSampleCluster.

(** * Further properties of the builders *)

Section MoreBuilderProperties.
Context `{Platform} `{Constants}.

(** X1.  [ResticAction] is a string type, and [ConfigureRestic] compares
    it with two of its constants only: every action other than
    [BackupAndPrune] and [Restore], a misspelt one too, gives the
    arguments of [BackupOnly]. *)
Theorem ConfigureRestic_unknown_action (action : ResticAction)
    (forgetOptions dataPVCName cachePVCName resticSecretName : string)
    (jr : JobReconciler) :
  action ≠ BackupAndPrune →
  action ≠ Restore →
  Container.Args <$>
    desired_containers
      (ConfigureRestic action forgetOptions dataPVCName cachePVCName
         resticSecretName jr)
  = [["backup"]].
Proof.
  intros Hp Hr. unfold ConfigureRestic.
  rewrite assign_desired_spec_containers. simpl.
  rewrite restic_actions_cases.
  by rewrite !decide_False.
Qed.

(** X2.  A builder works on the desired template only: the Job, the pause
    flag, the owner, the scheme and the log are as before, and the
    container array it builds is a new one at the end of the store, so
    every array that was there is as it was.  In particular the containers
    of the Job, which after an [Apply] are the array of the earlier
    desired template, do not change when a builder runs again. *)
Theorem builder_leaves_job_alone (b : BuilderCall) (jr : JobReconciler) :
  job (run_builder b jr) = job jr
  ∧ paused (run_builder b jr) = paused jr
  ∧ owner (run_builder b jr) = owner jr
  ∧ scheme (run_builder b jr) = scheme jr
  ∧ logger (run_builder b jr) = logger jr
  ∧ (∃ c, heap (run_builder b jr) = (heap jr ++ [[c]])%list)
  ∧ (∀ l : nat, (l < length (heap jr))%nat →
       heap (run_builder b jr) !! l = heap jr !! l)
  ∧ (valid_slice (heap jr) (PodSpec.Containers (Job.PodSpec (job jr))) →
     job_containers (run_builder b jr) = job_containers jr).
Proof.
  destruct (run_builder_shape b) as (c & vs & pre & ->).
  split_and!; try done.
  - by exists c.
  - intros l Hl. rewrite assign_desired_spec_heap. by apply lookup_app_l.
  - unfold job_containers, valid_slice. simpl.
    destruct (PodSpec.Containers (Job.PodSpec (job jr))) as [l|]; [|done].
    intros Hl. simpl. by rewrite lookup_app_l.
Qed.

(** X3.  Only [ConfigureRsync] writes the labels of the desired template:
    it replaces them by its argument, whatever was there.
    [ConfigureRestic] and [ConfigureRclone] keep the labels they find, so
    the labels of an earlier [ConfigureRsync] stay on the template when
    one of these two runs after it, and the next successful [Apply] puts
    them on the Job. *)
Theorem builder_labels (labels : option (gmap string string))
    (isSource : bool) (dataPVCName sshSecretName : string)
    (b : BuilderCall) (jr : JobReconciler) :
  PodTemplateSpec.Labels
    (desired (ConfigureRsync labels isSource dataPVCName sshSecretName jr))
  = labels
  ∧ (is_rsync b = false →
     let jr1 :=
       run_builder b
         (ConfigureRsync labels isSource dataPVCName sshSecretName jr) in
     PodTemplateSpec.Labels (desired (run_builder b jr))
     = PodTemplateSpec.Labels (desired jr)
     ∧ PodTemplateSpec.Labels (desired jr1) = labels
     ∧ ∀ jr2, Apply jr1 = (None, jr2) →
         ∃ merged,
           PodTemplateSpec.Labels (Job.Template (job jr2)) = Some merged
           ∧ default ∅ labels ⊆ merged).
Proof.
  split; [done|].
  destruct b; [discriminate| |]; intros _ jr1; (split_and!; [done|done|]);
    intros jr2 (meta & _ & ->)%Apply_None_inv;
    eexists; (split; [apply merge_labels_union|]);
    apply map_union_subseteq_l.
Qed.

(** X4.  In the template of every builder the volume mounts of the
    container and the volumes of the pod carry the same names in the same
    order, two of each: every mount has its volume and every volume is
    mounted. *)
Theorem builder_mounts_match_volumes (b : BuilderCall) (jr : JobReconciler) :
  ∃ c,
    desired_containers (run_builder b jr) = [c]
    ∧ VolumeMount.Name <$> Container.VolumeMounts c
      = Volume.Name <$>
          PodSpec.Volumes (PodTemplateSpec.Spec (desired (run_builder b jr)))
    ∧ length (Container.VolumeMounts c) = 2%nat.
Proof.
  destruct b; simpl;
    unfold ConfigureRsync, ConfigureRestic, ConfigureRclone;
    eexists; (split; [apply assign_desired_spec_containers|]); done.
Qed.

(** X5.  The paths that a mover reads from its environment are the paths
    at which its volumes are mounted: for rclone [MOUNT_PATH] is the mount
    path of the data volume and the file [RCLONE_CONFIG] lies under the
    mount path of the secret volume; for restic [DATA_DIR] is the mount
    path of the data volume and [RESTIC_CACHE_DIR] that of the cache
    volume. *)
Theorem builder_env_paths_are_mount_paths (isSource : bool)
    (action : ResticAction)
    (dataPVCName destinationPath configSection rcloneSecretName
       forgetOptions cachePVCName resticSecretName : string)
    (jr : JobReconciler) :
  (∃ c p cfg dir,
     desired_containers
       (ConfigureRclone isSource dataPVCName destinationPath configSection
          rcloneSecretName jr) = [c]
     ∧ env_value "MOUNT_PATH" (Container.Env c) = Some p
     ∧ VolumeMount.mk dataVolumeName p ∈ Container.VolumeMounts c
     ∧ env_value "RCLONE_CONFIG" (Container.Env c) = Some cfg
     ∧ VolumeMount.mk rcloneSecret dir ∈ Container.VolumeMounts c
     ∧ String.prefix dir cfg = true)
  ∧ (∃ c p q,
       desired_containers
         (ConfigureRestic action forgetOptions dataPVCName cachePVCName
            resticSecretName jr) = [c]
       ∧ env_value "DATA_DIR" (Container.Env c) = Some p
       ∧ VolumeMount.mk dataVolumeName p ∈ Container.VolumeMounts c
       ∧ env_value "RESTIC_CACHE_DIR" (Container.Env c) = Some q
       ∧ VolumeMount.mk resticCache q ∈ Container.VolumeMounts c).
Proof.
  split.
  - eexists _, mountPath, "/rclone-config/rclone.conf", "/rclone-config".
    unfold ConfigureRclone. rewrite assign_desired_spec_containers.
    split_and!; [reflexivity|reflexivity| |reflexivity| |reflexivity];
      simpl; set_solver.
  - eexists _, mountPath, resticCacheMountPath.
    unfold ConfigureRestic. rewrite assign_desired_spec_containers.
    split_and!; [reflexivity|reflexivity| |reflexivity|]; simpl; set_solver.
Qed.

(** X6.  Every builder makes its container run as the numeric user 0,
    root, and sets neither [RunAsNonRoot] nor [Privileged]; only the
    container of [ConfigureRsync] adds capabilities. *)
Theorem builder_runs_as_root (b : BuilderCall) (jr : JobReconciler) :
  ∃ c sc,
    desired_containers (run_builder b jr) = [c]
    ∧ Container.SecurityContext c = Some sc
    ∧ SecurityContext.RunAsUser sc = Some 0
    ∧ SecurityContext.RunAsNonRoot sc = None
    ∧ SecurityContext.Privileged sc = None
    ∧ (is_Some (SecurityContext.Capabilities sc) ↔ is_rsync b = true).
Proof.
  destruct b; simpl;
    unfold ConfigureRsync, ConfigureRestic, ConfigureRclone;
    eexists _, _; (split; [apply assign_desired_spec_containers|]);
    (split_and!; [reflexivity..|]); simpl.
  - split; [done|]. intros _. by eexists.
  - split; [by intros [? ?]|discriminate].
  - split; [by intros [? ?]|discriminate].
Qed.

(** X7.  The environment that [ConfigureRestic] builds is three plain
    variables followed by one [envFromSecret] binding for each variable of
    [restic_secret_variables], all on the secret that the caller named.
    The table has 32 variables with no name twice, and the only ones that
    are not optional are the repository and its password. *)
Theorem ConfigureRestic_secret_variables (action : ResticAction)
    (forgetOptions dataPVCName cachePVCName resticSecretName : string)
    (jr : JobReconciler) :
  Container.Env <$>
    desired_containers
      (ConfigureRestic action forgetOptions dataPVCName cachePVCName
         resticSecretName jr)
  = [ ([ env "FORGET_OPTIONS" forgetOptions;
         env "DATA_DIR" mountPath;
         env "RESTIC_CACHE_DIR" resticCacheMountPath ]
       ++ ((λ v, envFromSecret resticSecretName v.1 v.2) <$>
             restic_secret_variables))%list ]
  ∧ length restic_secret_variables = 32%nat
  ∧ NoDup (restic_secret_variables.*1)
  ∧ (filter (λ v, v.2 = false) restic_secret_variables).*1
    = ["RESTIC_REPOSITORY"; "RESTIC_PASSWORD"].
Proof.
  split_and!.
  - unfold ConfigureRestic. by rewrite assign_desired_spec_containers.
  - reflexivity.
  - apply (bool_decide_unpack _). by vm_compute.
  - reflexivity.
Qed.

(** X20.  [ConfigureRclone] tells the mover its direction through the
    environment, not through the command: the command is the same for
    both directions, [DIRECTION] is "source" when [isSource] is true and
    "destination" when it is false, and the destination path and the
    configuration section are handed on as the caller gave them. *)
Theorem ConfigureRclone_direction (isSource : bool)
    (dataPVCName destinationPath configSection rcloneSecretName : string)
    (jr : JobReconciler) :
  ∃ c,
    desired_containers
      (ConfigureRclone isSource dataPVCName destinationPath configSection
         rcloneSecretName jr) = [c]
    ∧ Container.Command c = ["/bin/bash"; "-c"; "./active.sh"]
    ∧ env_value "DIRECTION" (Container.Env c)
      = Some (if isSource then "source" else "destination")
    ∧ env_value "RCLONE_DEST_PATH" (Container.Env c) = Some destinationPath
    ∧ env_value "RCLONE_CONFIG_SECTION" (Container.Env c)
      = Some configSection
    ∧ EnvVar.Name <$> Container.Env c
      = [ "RCLONE_DEST_PATH"; "DIRECTION"; "RCLONE_CONFIG";
          "RCLONE_CONFIG_SECTION"; "MOUNT_PATH" ].
Proof.
  eexists. unfold ConfigureRclone.
  rewrite assign_desired_spec_containers.
  by split_and!.
Qed.

(** X21.  The template of a builder has exactly two volumes.  The first
    is the data volume: it has the name [dataVolumeName] and is backed by
    the data claim that the caller named.  The second is, for restic, the
    volume [resticCache] backed by the cache claim of the caller; for
    rsync the volume "keys" and for rclone the volume [rcloneSecret],
    each backed by the secret that the caller named.  So every volume is
    either backed by a claim that is not read-only, or by a secret with
    the file mode 0600: read and write for the owner and no bit for group
    or others. *)
Theorem builder_volume_sources (b : BuilderCall) (jr : JobReconciler) :
  let vols :=
    PodSpec.Volumes (PodTemplateSpec.Spec (desired (run_builder b jr))) in
  vols
  = [ pvc_volume dataVolumeName (data_claim b);
      match b with
      | CallRsync _ _ _ sshSecretName =>
          secret_volume "keys" sshSecretName mode_0600
      | CallRestic _ _ _ cachePVCName _ =>
          pvc_volume resticCache cachePVCName
      | CallRclone _ _ _ _ rcloneSecretName =>
          secret_volume rcloneSecret rcloneSecretName mode_0600
      end ]
  ∧ omap (λ v, SecretVolumeSource.SecretName <$>
                 VolumeSource.Secret (Volume.VolumeSource v)) vols
    = option_list (secret_of b)
  ∧ omap (λ v, PersistentVolumeClaimVolumeSource.ClaimName <$>
                 VolumeSource.PersistentVolumeClaim
                   (Volume.VolumeSource v)) vols
    = data_claim b
      :: match b with
         | CallRestic _ _ _ cachePVCName _ => [cachePVCName]
         | _ => []
         end
  ∧ head (omap (λ v, PersistentVolumeClaimVolumeSource.ClaimName <$>
                       VolumeSource.PersistentVolumeClaim
                         (Volume.VolumeSource v)) vols)
    = Some (data_claim b)
  ∧ Forall (λ v,
      (∃ claim,
         Volume.VolumeSource v
         = VolumeSource.mk
             (Some (PersistentVolumeClaimVolumeSource.mk claim false)) None)
      ∨ (∃ secret,
           Volume.VolumeSource v
           = VolumeSource.mk None
               (Some (SecretVolumeSource.mk secret (Some mode_0600))))) vols
  ∧ mode_0600 = 384
  ∧ Z.shiftr mode_0600 6 = 6
  ∧ Z.land mode_0600 63 = 0.
Proof.
  intros vols. unfold vols.
  destruct b; simpl; split_and!; try done;
    repeat (first [apply List.Forall_nil | apply List.Forall_cons]);
    simpl; eauto.
Qed.

End MoreBuilderProperties.

(** * Further properties of [Apply] and of the setters *)

Section MoreApplyProperties.
Context `{Platform} `{Constants}.

(** X8.  When the owner reference cannot be set, [Apply] returns that
    error and has changed nothing but the log: the Job, the desired
    template, the flag and the store are as before, and the log has one
    more entry, the error. *)
Theorem Apply_failure_changes_nothing (jr jr' : JobReconciler) (e : Error) :
  Apply jr = (Some e, jr') →
  SetControllerReference (owner jr) (Job.ObjectMeta (job jr)) (scheme jr)
  = inl e
  ∧ job jr' = job jr
  ∧ desired jr' = desired jr
  ∧ paused jr' = paused jr
  ∧ heap jr' = heap jr
  ∧ logger jr'
    = (logger jr ++ [LogError e "unable to set controller reference"])%list.
Proof.
  destruct (SetControllerReference (owner jr) (Job.ObjectMeta (job jr))
              (scheme jr)) as [err|meta] eqn:Hm.
  - rewrite (Apply_inl _ _ Hm). by intros [= <- <-].
  - rewrite (Apply_inr _ _ Hm). discriminate.
Qed.

(** X9.  A successful [Apply] writes the Job and nothing else of the
    reconciler, and in the Job it leaves alone what it does not own: the
    status, the completions, the DNS policy and scheduler name of the pod,
    and the name, namespace and owner references of the template.  The
    metadata of the Job is what [SetControllerReference] made of it, and
    the restart policy is "Never" and the retry budget 2 whatever they
    were. *)
Theorem Apply_frame (jr jr' : JobReconciler) :
  Apply jr = (None, jr') →
  desired jr' = desired jr
  ∧ paused jr' = paused jr
  ∧ heap jr' = heap jr
  ∧ logger jr' = logger jr
  ∧ Job.Status (job jr') = Job.Status (job jr)
  ∧ JobSpec.Completions (Job.Spec (job jr'))
    = JobSpec.Completions (Job.Spec (job jr))
  ∧ PodSpec.DNSPolicy (Job.PodSpec (job jr'))
    = PodSpec.DNSPolicy (Job.PodSpec (job jr))
  ∧ PodSpec.SchedulerName (Job.PodSpec (job jr'))
    = PodSpec.SchedulerName (Job.PodSpec (job jr))
  ∧ ObjectMeta.set_Labels None
      (PodTemplateSpec.ObjectMeta (Job.Template (job jr')))
    = ObjectMeta.set_Labels None
        (PodTemplateSpec.ObjectMeta (Job.Template (job jr)))
  ∧ SetControllerReference (owner jr) (Job.ObjectMeta (job jr)) (scheme jr)
    = inr (Job.ObjectMeta (job jr'))
  ∧ PodSpec.RestartPolicy (Job.PodSpec (job jr')) = "Never"
  ∧ JobSpec.BackoffLimit (Job.Spec (job jr')) = Some 2.
Proof. intros (meta & Hm & ->)%Apply_None_inv. by split_and!. Qed.

(** X10.  [Apply] is idempotent: when it has succeeded and setting the
    owner reference again on its result changes nothing, the Job is
    converged, and a second [Apply] succeeds and returns the very same
    reconciler. *)
Theorem Apply_idempotent (jr jr1 : JobReconciler) :
  Apply jr = (None, jr1) →
  SetControllerReference (owner jr) (Job.ObjectMeta (job jr1)) (scheme jr)
  = inr (Job.ObjectMeta (job jr1)) →
  converged jr1 ∧ Apply jr1 = (None, jr1).
Proof.
  intros (meta & Hm & ->)%Apply_None_inv Hagain. simpl in Hagain.
  split.
  - unfold converged. split_and!; try done.
    cbn -[merge_labels]. rewrite merge_labels_union. simpl.
    apply map_union_subseteq_l.
  - rewrite (Apply_inr (set_job (applied_job meta jr) jr) meta Hagain).
    unfold applied_job, set_job. cbn -[merge_labels].
    rewrite !merge_labels_union. simpl.
    by rewrite (assoc_L (∪)), (idemp_L (∪)).
Qed.

(** X11.  [Apply] on a reconciler on which no builder has run, straight
    from [NewJobReconciler], empties the pod of the live Job: no
    container, no volume, no service account.  It is not paused, so the
    parallelism is 1, and as nothing is desired the labels are the live
    ones. *)
Theorem Apply_without_builder lg sch own (j : Job.t) (h : Heap)
    (jr' : JobReconciler) :
  Apply (NewJobReconciler lg sch own j h) = (None, jr') →
  job_containers jr' = []
  ∧ PodSpec.Containers (Job.PodSpec (job jr')) = None
  ∧ PodSpec.Volumes (Job.PodSpec (job jr')) = []
  ∧ PodSpec.ServiceAccountName (Job.PodSpec (job jr')) = ""
  ∧ JobSpec.Parallelism (Job.Spec (job jr')) = Some 1
  ∧ PodTemplateSpec.Labels (Job.Template (job jr'))
    = Some (default ∅ (PodTemplateSpec.Labels (Job.Template j))).
Proof.
  intros (meta & Hm & ->)%Apply_None_inv.
  by split_and!.
Qed.

(** X12.  What the caller sets after the builder reaches the Job: with a
    binding added by [AddEnv] and a service account set by
    [SetServiceAccount] after any builder, a successful [Apply] leaves the
    Job with the one built container, its environment extended by the
    binding, with the volumes of the builder and with that service
    account. *)
Theorem builder_setters_Apply (b : BuilderCall) (jr : JobReconciler)
    (name value saName : string) :
  ∃ c jr0,
    desired_containers (run_builder b jr) = [c]
    ∧ AddEnv name value (run_builder b jr) = Some jr0
    ∧ ∀ jr1,
        Apply (SetServiceAccount saName jr0) = (None, jr1) →
        job_containers jr1 = [with_env name value c]
        ∧ PodSpec.ServiceAccountName (Job.PodSpec (job jr1)) = saName
        ∧ PodSpec.Volumes (Job.PodSpec (job jr1))
          = PodSpec.Volumes
              (PodTemplateSpec.Spec (desired (run_builder b jr))).
Proof.
  destruct (run_builder_shape b) as (c & vs & pre & Hb).
  exists c. eexists. rewrite Hb. split_and!.
  - apply assign_desired_spec_containers.
  - apply AddEnv_Some; [done|].
    rewrite assign_desired_spec_heap. by apply list_lookup_middle.
  - intros jr1 (meta & _ & ->)%Apply_None_inv.
    split_and!; try done.
    unfold job_containers. simpl.
    rewrite list_lookup_insert_eq; [done|].
    rewrite length_app. simpl. lia.
Qed.

(** The bindings that a list of pairs stands for. *)
Lemma AddEnvs_Configured (kvs : list (string * string)) (jr : JobReconciler)
    l c :
  PodSpec.Containers (PodTemplateSpec.Spec (desired jr)) = Some l →
  heap jr !! l = Some [c] →
  AddEnvs kvs jr
  = Some (set_heap
            (<[l := [Container.set_Env
                       (Container.Env c
                        ++ ((λ kv, env kv.1 kv.2) <$> kvs))%list c]]>
               (heap jr)) jr).
Proof.
  revert jr c. induction kvs as [|[n v] kvs IH]; intros jr c Hl Hc.
  - simpl. rewrite (right_id_L [] app).
    destruct c, jr; simpl in *. by rewrite list_insert_id.
  - simpl. rewrite (AddEnv_Some n v jr l c [] Hl Hc). simpl.
    rewrite (IH _ (with_env n v c)); [|done|].
    + simpl. rewrite list_insert_insert_eq.
      unfold with_env. simpl. by rewrite <- (assoc_L app).
    + simpl. apply list_lookup_insert_eq. by eapply lookup_lt_Some.
Qed.

(** X13.  A run of [AddEnv] calls after a builder never panics and
    appends the bindings to the environment of the single container in the
    order of the calls, after the bindings of the builder; a name that
    comes twice is bound twice.  The Job record and the template are as
    before.  On a fresh reconciler the first call of a run panics. *)
Theorem AddEnvs_appends_in_order (kvs : list (string * string))
    (jr : JobReconciler) :
  (Configured jr →
   ∃ c jr',
     desired_containers jr = [c]
     ∧ AddEnvs kvs jr = Some jr'
     ∧ desired_containers jr'
       = [Container.set_Env
            (Container.Env c ++ ((λ kv, EnvVar.mk kv.1 kv.2 None) <$> kvs))%list
            c]
     ∧ job jr' = job jr
     ∧ desired jr' = desired jr)
  ∧ (∀ lg sch own j h,
       kvs ≠ [] → AddEnvs kvs (NewJobReconciler lg sch own j h) = None).
Proof.
  split.
  - intros (l & c & Hl & Hc)%Configured_single.
    exists c. eexists. split_and!.
    + unfold desired_containers. rewrite Hl. simpl. by rewrite Hc.
    + by apply AddEnvs_Configured.
    + unfold desired_containers. simpl. rewrite Hl. simpl.
      rewrite list_lookup_insert_eq; [done|]. by eapply lookup_lt_Some.
    + done.
    + done.
  - intros lg sch own j h Hne. by destruct kvs as [|[n v] kvs].
Qed.

(** X14.  After a successful [Apply] the Job and the desired template hold
    the same container array.  So when a builder has run, an [AddEnv]
    after [Apply] shows in the containers of the Job at once, with no
    further [Apply], although the Job record itself is not written. *)
Theorem AddEnv_after_Apply_reaches_job (name value : string)
    (jr jr1 : JobReconciler) :
  Configured jr →
  Apply jr = (None, jr1) →
  ∃ c jr2,
    job_containers jr1 = [c]
    ∧ AddEnv name value jr1 = Some jr2
    ∧ job jr2 = job jr1
    ∧ job_containers jr2 = [with_env name value c]
    ∧ job_containers jr2 ≠ job_containers jr1.
Proof.
  intros (l & c & Hl & Hc)%Configured_single (meta & _ & ->)%Apply_None_inv.
  exists c. eexists.
  assert (Hlt : (l < length (heap jr))%nat) by by eapply lookup_lt_Some.
  split_and!.
  - unfold job_containers. simpl. rewrite Hl. simpl. by rewrite Hc.
  - by apply AddEnv_Some.
  - done.
  - unfold job_containers. simpl. rewrite Hl. simpl.
    by rewrite list_lookup_insert_eq.
  - unfold job_containers. simpl. rewrite Hl. simpl.
    rewrite list_lookup_insert_eq by done. rewrite Hc. simpl.
    intros [= Heq].
    apply (f_equal (λ x, length (Container.Env x))) in Heq.
    simpl in Heq. rewrite length_app in Heq. simpl in Heq. lia.
Qed.

(** X15.  The setters work on different parts of the reconciler and
    commute with each other: the pause flag with the service account, and
    [AddEnv] with both; of two calls of [SetPause] or of
    [SetServiceAccount] the last one counts.  Neither of the two can make
    [AddEnv] panic or save it from panicking. *)
Theorem setters_commute (p p' : bool) (sa sa' name value : string)
    (jr : JobReconciler) :
  SetPause p (SetServiceAccount sa jr) = SetServiceAccount sa (SetPause p jr)
  ∧ AddEnv name value (SetPause p jr) = SetPause p <$> AddEnv name value jr
  ∧ AddEnv name value (SetServiceAccount sa jr)
    = SetServiceAccount sa <$> AddEnv name value jr
  ∧ SetPause p' (SetPause p jr) = SetPause p' jr
  ∧ SetServiceAccount sa' (SetServiceAccount sa jr) = SetServiceAccount sa' jr.
Proof.
  split_and!; try done.
  - unfold AddEnv. simpl.
    destruct (PodSpec.Containers _) as [l|]; [|done].
    by destruct (heap jr !! l) as [[|c cs]|].
  - unfold AddEnv. simpl.
    destruct (PodSpec.Containers _) as [l|]; [|done].
    by destruct (heap jr !! l) as [[|c cs]|].
Qed.

End MoreApplyProperties.

(** * Further properties of [Reconcile] *)

Section MoreReconcileProperties.
Context `{Platform} `{Constants} {W : Type} `{Client W}.

(** [Apply] writes the Job and the log only, and at most one log entry. *)
Lemma Apply_keeps_configuration (jr : JobReconciler) :
  desired (Apply jr).2 = desired jr
  ∧ paused (Apply jr).2 = paused jr
  ∧ owner (Apply jr).2 = owner jr
  ∧ scheme (Apply jr).2 = scheme jr
  ∧ ∃ entries,
      logger (Apply jr).2 = (logger jr ++ entries)%list
      ∧ (length entries ≤ 1)%nat.
Proof.
  unfold Apply.
  destruct (SetControllerReference _ _ _) as [e|meta]; simpl.
  - split_and!; try done. eexists [_]. split; [done|]. simpl. lia.
  - split_and!; try done. exists []. split; [|simpl; lia].
    by rewrite (right_id_L [] app).
Qed.

Lemma CreateOrUpdate_keeps_configuration (jr : JobReconciler) (w : W)
    op err jr1 w1 :
  CreateOrUpdate Apply jr w = (op, err, jr1, w1) →
  desired jr1 = desired jr
  ∧ paused jr1 = paused jr
  ∧ owner jr1 = owner jr
  ∧ scheme jr1 = scheme jr
  ∧ ∃ entries,
      logger jr1 = (logger jr ++ entries)%list ∧ (length entries ≤ 1)%nat.
Proof.
  unfold CreateOrUpdate.
  destruct (Get _ _ w) as [[gerr o] w0].
  set (jr0 := set_obj o jr).
  assert (Hm : ∀ e jr2,
             mutate Apply (ObjectKeyFromObject (job jr)) jr0 = (e, jr2) →
             desired jr2 = desired jr ∧ paused jr2 = paused jr
             ∧ owner jr2 = owner jr ∧ scheme jr2 = scheme jr
             ∧ ∃ entries, logger jr2 = (logger jr ++ entries)%list
                          ∧ (length entries ≤ 1)%nat).
  { intros e jr2. unfold mutate.
    pose proof (Apply_keeps_configuration jr0) as Hk.
    destruct (Apply jr0) as [[e'|] jr3]; simpl in Hk.
    - by intros [= _ <-].
    - case_decide; by intros [= _ <-]. }
  assert (Hnone : desired jr0 = desired jr ∧ paused jr0 = paused jr
                  ∧ owner jr0 = owner jr ∧ scheme jr0 = scheme jr
                  ∧ ∃ entries, logger jr0 = (logger jr ++ entries)%list
                               ∧ (length entries ≤ 1)%nat).
  { split_and!; try done. exists []. split; [|simpl; lia].
    by rewrite (right_id_L [] app). }
  destruct gerr as [e|].
  - destruct (negb (IsNotFound e)); [by intros [= _ _ <- _]|].
    destruct (mutate _ _ _) as [[e'|] jr2] eqn:Hmu.
    + intros [= _ _ <- _]. exact (Hm _ _ eq_refl).
    + pose proof (Hm _ _ eq_refl) as Hk.
      destruct (Create _ w0) as [[[e'|] o'] w'];
        by intros [= _ _ <- _].
  - destruct (mutate _ _ _) as [[e'|] jr2] eqn:Hmu.
    + intros [= _ _ <- _]. exact (Hm _ _ eq_refl).
    + pose proof (Hm _ _ eq_refl) as Hk.
      destruct (DeepEqual _ _); [by intros [= _ _ <- _]|].
      destruct (Update _ w0) as [[[e'|] o'] w'];
        by intros [= _ _ <- _].
Qed.

(** X16.  [Reconcile] reports the Job as active exactly when the
    create-or-update succeeded and the failed count of the Job it left is
    below the retry budget that this Job carries; the comparison is "at
    least", so a count above the budget ends the Job like a count equal to
    it.  An active report never comes with an error, and no delete was
    issued for it: the cluster is as the create-or-update left it.  A
    failed create-or-update is reported with its own error and without a
    delete.  The one way to panic is a successful create-or-update that
    leaves a Job with no retry budget. *)
Theorem Reconcile_active_iff (jr : JobReconciler) (w : W) op cerr jr1 w1 :
  CreateOrUpdate Apply jr w = (op, cerr, jr1, w1) →
  (Reconcile jr w = None ↔
   cerr = None ∧ JobSpec.BackoffLimit (Job.Spec (job jr1)) = None)
  ∧ ∀ active err jr' w',
      Reconcile jr w = Some ((active, err), jr', w') →
      (active = true ↔
       cerr = None
       ∧ ∃ limit,
           JobSpec.BackoffLimit (Job.Spec (job jr1)) = Some limit
           ∧ JobStatus.Failed (Job.Status (job jr1)) < limit)
      ∧ (active = true → err = None ∧ w' = w1 ∧ job jr' = job jr1)
      ∧ (∀ e, cerr = Some e → active = false ∧ err = Some e ∧ w' = w1)
      ∧ (cerr = None → active = false →
         (err, w')
         = Delete (job jr1, heap jr1)
             [PropagationPolicy DeletePropagationBackground] w1).
Proof.
  intros Hcu. destruct cerr as [e|].
  - rewrite (Reconcile_failed _ _ _ _ _ _ Hcu).
    split; [split; [discriminate|by intros [? _]]|].
    intros active err jr' w' [= <- <- <- <-].
    split_and!; [split; [done|by intros [? _]]|done|by intros ? [= <-]|done].
  - destruct (JobSpec.BackoffLimit (Job.Spec (job jr1))) as [limit|] eqn:Hl.
    + rewrite (Reconcile_succeeded _ _ _ _ _ _ Hcu Hl).
      split; [split; [discriminate|by intros [_ ?]]|].
      intros active err jr' w'. case_decide as Hf.
      * unfold abandon. intros [= <- <- <- <-]. split_and!.
        -- split; [done|]. intros (_ & limit' & [= <-] & Hlt). lia.
        -- done.
        -- done.
        -- intros _ _. by destruct (Delete _ _ _).
      * intros [= <- <- <- <-]. split_and!; try done.
        split; [|done]. intros _. split; [done|]. exists limit.
        split; [done|lia].
    + rewrite (Reconcile_nil_limit _ _ _ _ _ Hcu Hl).
      split; [done|discriminate].
Qed.

(** X17.  [Reconcile] leaves the pause flag, the owner and the scheme of
    the reconciler as they were, and of the desired template the metadata
    with its labels and the service-account name; it only adds to the
    log, one or two entries.  The containers and the volumes of the
    desired template are not part of this: their arrays are shared with
    the Job after [Apply], and the client may write into them. *)
Theorem Reconcile_keeps_configuration (jr : JobReconciler) (w : W) r jr' w' :
  Reconcile jr w = Some (r, jr', w') →
  paused jr' = paused jr
  ∧ owner jr' = owner jr
  ∧ scheme jr' = scheme jr
  ∧ PodTemplateSpec.ObjectMeta (desired jr')
    = PodTemplateSpec.ObjectMeta (desired jr)
  ∧ PodSpec.ServiceAccountName (PodTemplateSpec.Spec (desired jr'))
    = PodSpec.ServiceAccountName (PodTemplateSpec.Spec (desired jr))
  ∧ ∃ entries,
      logger jr' = (logger jr ++ entries)%list
      ∧ (1 ≤ length entries ≤ 2)%nat.
Proof.
  destruct (CreateOrUpdate Apply jr w) as [[[op cerr] jr1] w1] eqn:Hcu.
  destruct (CreateOrUpdate_keeps_configuration _ _ _ _ _ _ Hcu)
    as (Hd & Hp & Ho & Hs & entries & Hlog & Hlen).
  assert (Hgrow : ∀ entry,
            ∃ entries',
              (logger jr1 ++ [entry] = logger jr ++ entries')%list
              ∧ (1 ≤ length entries' ≤ 2)%nat).
  { intros entry. exists (entries ++ [entry])%list.
    rewrite Hlog, (assoc_L app), length_app. simpl. split; [done|lia]. }
  destruct cerr as [e|].
  - rewrite (Reconcile_failed _ _ _ _ _ _ Hcu).
    intros [= _ <- _]. simpl. rewrite Hd.
    split_and!; try done; apply Hgrow.
  - destruct (JobSpec.BackoffLimit (Job.Spec (job jr1))) as [limit|] eqn:Hl.
    + rewrite (Reconcile_succeeded _ _ _ _ _ _ Hcu Hl).
      case_decide; intros [= _ <- _]; simpl; rewrite Hd;
        split_and!; try done; apply Hgrow.
    + by rewrite (Reconcile_nil_limit _ _ _ _ _ Hcu Hl).
Qed.

(** X18.  When the owner reference cannot be set on the Job that was
    fetched, or on the caller's Job when the cluster has none, [Reconcile]
    submits nothing: it returns [false] with that error, the cluster is as
    the fetch left it (no create, no update, no delete), the Job is as
    fetched, and the log has the two error entries. *)
Theorem Reconcile_owner_reference_failure (jr : JobReconciler) (w : W)
    gerr j h w0 e :
  Get (ObjectKeyFromObject (job jr)) (job jr, heap jr) w = (gerr, (j, h), w0) →
  (gerr = None ∨ ∃ ge, gerr = Some ge ∧ IsNotFound ge = true) →
  SetControllerReference (owner jr) (Job.ObjectMeta j) (scheme jr) = inl e →
  Reconcile jr w
  = Some ((false, Some e),
          log_Error e "job reconcile failed"
            (log_Error e "unable to set controller reference"
               (set_obj (j, h) jr)),
          w0).
Proof.
  intros Hget Hgerr Hown.
  assert (Hcu : CreateOrUpdate Apply jr w
                = (OperationResultNone, Some e,
                   log_Error e "unable to set controller reference"
                     (set_obj (j, h) jr), w0)).
  { unfold CreateOrUpdate. rewrite Hget.
    assert (Hm : mutate Apply (ObjectKeyFromObject (job jr))
                   (set_obj (j, h) jr)
                 = (Some e,
                    log_Error e "unable to set controller reference"
                      (set_obj (j, h) jr))).
    { unfold mutate. by rewrite (Apply_inl (set_obj (j, h) jr) e Hown). }
    destruct Hgerr as [->|(ge & -> & Hnf)].
    - by rewrite Hm.
    - rewrite Hnf. simpl. by rewrite Hm. }
  by rewrite (Reconcile_failed _ _ _ _ _ _ Hcu).
Qed.

(** [DeepEqual] does not see which array holds the containers, nor
    whether an empty label map is nil. *)
Lemma canon_labels_union (want : gmap string string)
    (live : option (gmap string string)) :
  want ⊆ default ∅ live →
  canon_labels (Some (want ∪ default ∅ live)) = canon_labels live.
Proof.
  intros Hsub. rewrite (map_subseteq_union _ _ Hsub).
  destruct live as [m|]; simpl; [done|].
  by rewrite decide_True.
Qed.

Lemma converged_DeepEqual (jr : JobReconciler) :
  converged jr →
  DeepEqual (snapshot jr)
    (snapshot (set_job (applied_job (Job.ObjectMeta (job jr)) jr) jr))
  = true.
Proof.
  intros (_ & Hpar & Hbl & Hrp & Hcs & Hvs & Hsa & Hsub).
  apply bool_decide_eq_true.
  unfold snapshot, job_containers in *. unfold desired_containers in Hcs.
  destruct jr as [lg sch own j d p hp].
  destruct j as [m [par comp bl [tm [vols cs rp sa dns sched]]] st].
  destruct tm as [tn tns tl tor].
  cbn -[merge_labels canon_labels] in *. subst.
  unfold canon. cbn -[merge_labels canon_labels].
  rewrite merge_labels_union.
  unfold canon_meta. cbn -[canon_labels].
  rewrite (canon_labels_union _ _ Hsub).
  by rewrite Hcs.
Qed.

(** X19.  Reconciling a converged Job writes nothing.  When the fetch
    returns the Job under the same name and namespace and it is converged
    for this reconciler, the create-or-update reports "unchanged" and
    issues neither a create nor an update, although [Apply] has put the
    container array of the desired template in the place of the fetched
    one; and with a failed count below 2, [Reconcile] returns
    [(true, nil)] with the cluster as the fetch left it. *)
Theorem Reconcile_converged_writes_nothing (jr : JobReconciler) (w : W)
    j h w0 :
  Get (ObjectKeyFromObject (job jr)) (job jr, heap jr) w = (None, (j, h), w0) →
  ObjectKeyFromObject j = ObjectKeyFromObject (job jr) →
  converged (set_obj (j, h) jr) →
  ∃ jr1,
    CreateOrUpdate Apply jr w = (OperationResultNone, None, jr1, w0)
    ∧ PodSpec.Containers (Job.PodSpec (job jr1))
      = PodSpec.Containers (PodTemplateSpec.Spec (desired jr))
    ∧ (JobStatus.Failed (Job.Status j) < 2 →
       Reconcile jr w
       = Some ((true, None),
               log_Info "job reconciled" [("operation", "unchanged")] jr1,
               w0)).
Proof.
  intros Hget Hkey Hconv.
  set (jr0 := set_obj (j, h) jr) in *.
  pose proof Hconv as (Hown & _).
  set (jr1 := set_job (applied_job (Job.ObjectMeta (job jr0)) jr0) jr0).
  assert (Hcu : CreateOrUpdate Apply jr w
                = (OperationResultNone, None, jr1, w0)).
  { unfold CreateOrUpdate. rewrite Hget. fold jr0.
    unfold mutate. rewrite (Apply_inr jr0 _ Hown).
    rewrite decide_True by (symmetry; exact Hkey).
    pose proof (converged_DeepEqual jr0 Hconv) as Hde.
    by rewrite Hde. }
  exists jr1. split_and!; [done|done|].
  intros Hf.
  rewrite (Reconcile_succeeded _ _ _ _ _ 2 Hcu) by done.
  by rewrite decide_False by (simpl; lia).
Qed.

End MoreReconcileProperties.

(** * The further properties on the sample cluster *)

Section MoreOnTheSampleCluster.
Import Sample.

Lemma ConfigureRestic_unknown_action_witness :
  Container.Args <$>
    desired_containers
      (ConfigureRestic "BackupAndprune" "--keep-last 3" "database-data"
         "database-cache" "restic-repo" fresh_reconciler)
  = [["backup"]].
Proof.
  apply ConfigureRestic_unknown_action; discriminate.
Defined.

Lemma builder_leaves_job_alone_witness :
  let jr := (Apply rsync_reconciler_live).2 in
  let b := CallRestic Restore "" "database-data" "database-cache"
             "restic-repo" in
  job_containers (run_builder b jr) = job_containers jr
  ∧ heap (run_builder b jr) !! 0%nat = heap jr !! 0%nat.
Proof.
  intros jr b.
  destruct (builder_leaves_job_alone b jr)
    as (_ & _ & _ & _ & _ & _ & Hold & Hjob).
  split.
  - apply Hjob. vm_compute. lia.
  - apply Hold. vm_compute. lia.
Defined.

Lemma builder_labels_witness :
  let jr1 :=
    ConfigureRestic Restore "" "database-data" "database-cache" "restic-repo"
      (ConfigureRsync (Some {["b" := "2"]}) true "database-data" "rsync-keys"
         (set_job (stored_job 0) fresh_reconciler)) in
  ∃ merged,
    PodTemplateSpec.Labels (Job.Template (job (Apply jr1).2)) = Some merged
    ∧ {["b" := "2"]} ⊆ merged.
Proof.
  intros jr1.
  destruct (builder_labels (Some {["b" := "2"]}) true "database-data"
              "rsync-keys"
              (CallRestic Restore "" "database-data" "database-cache"
                 "restic-repo")
              (set_job (stored_job 0) fresh_reconciler))
    as (_ & Hkeeps).
  destruct (Hkeeps eq_refl) as (_ & _ & Hmerge).
  apply (Hmerge (Apply jr1).2). vm_compute. reflexivity.
Defined.

Lemma Apply_failure_changes_nothing_witness :
  ∃ e,
    Apply unregistered_reconciler = (Some e, (Apply unregistered_reconciler).2)
    ∧ job (Apply unregistered_reconciler).2 = job unregistered_reconciler
    ∧ length (logger (Apply unregistered_reconciler).2) = 1%nat.
Proof.
  exists (ErrOther "no kind is registered for the owner type").
  assert (Ha : Apply unregistered_reconciler
               = (Some (ErrOther "no kind is registered for the owner type"),
                  (Apply unregistered_reconciler).2))
    by (vm_compute; reflexivity).
  destruct (Apply_failure_changes_nothing _ _ _ Ha)
    as (_ & Hjob & _ & _ & _ & Hlog).
  split; [exact Ha|]. split; [exact Hjob|]. rewrite Hlog. reflexivity.
Defined.

Lemma Apply_frame_witness :
  Job.Status (job (Apply rsync_reconciler_live).2) = JobStatus.mk 0 0 0
  ∧ PodSpec.DNSPolicy (Job.PodSpec (job (Apply rsync_reconciler_live).2))
    = "ClusterFirst"
  ∧ JobSpec.Completions (Job.Spec (job (Apply rsync_reconciler_live).2))
    = Some 1.
Proof.
  assert (Ha : Apply rsync_reconciler_live
               = (None, (Apply rsync_reconciler_live).2))
    by (vm_compute; reflexivity).
  destruct (Apply_frame _ _ Ha)
    as (_ & _ & _ & _ & Hst & Hco & Hdns & _).
  rewrite Hst, Hdns, Hco. repeat split.
Defined.

Lemma Apply_idempotent_witness :
  Apply (Apply rsync_reconciler_live).2
  = (None, (Apply rsync_reconciler_live).2).
Proof.
  assert (Ha : Apply rsync_reconciler_live
               = (None, (Apply rsync_reconciler_live).2))
    by (vm_compute; reflexivity).
  apply (Apply_idempotent _ _ Ha). vm_compute. reflexivity.
Defined.

Lemma Apply_without_builder_witness :
  let jr := NewJobReconciler [] scheme_with_scribe replication_source
              (stored_job 0) [] in
  job_containers (Apply jr).2 = []
  ∧ PodSpec.ServiceAccountName (Job.PodSpec (job (Apply jr).2)) = ""
  ∧ PodSpec.ServiceAccountName (Job.PodSpec (job jr)) = "default".
Proof.
  intros jr.
  assert (Ha : Apply jr = (None, (Apply jr).2)) by (vm_compute; reflexivity).
  destruct (Apply_without_builder _ _ _ _ _ _ Ha) as (Hc & _ & _ & Hsa & _).
  split; [exact Hc|]. split; [exact Hsa|reflexivity].
Defined.

Lemma builder_setters_Apply_witness :
  ∃ jr0 jr1,
    AddEnv "RSYNC_OPTS" "-a"
      (ConfigureRsync (Some {["b" := "2"]}) true "database-data" "rsync-keys"
         (set_job (stored_job 0) fresh_reconciler)) = Some jr0
    ∧ Apply (SetServiceAccount "mover" jr0) = (None, jr1)
    ∧ Container.Env <$> job_containers jr1
      = [[EnvVar.mk "RSYNC_OPTS" "-a" None]]
    ∧ PodSpec.ServiceAccountName (Job.PodSpec (job jr1)) = "mover".
Proof.
  destruct (builder_setters_Apply
              (CallRsync (Some {["b" := "2"]}) true "database-data"
                 "rsync-keys")
              (set_job (stored_job 0) fresh_reconciler)
              "RSYNC_OPTS" "-a" "mover")
    as (c & jr0 & Hc & Hadd & Happly).
  simpl in Hc. unfold ConfigureRsync in Hc.
  rewrite assign_desired_spec_containers in Hc. injection Hc as <-.
  assert (Hjr0 : jr0 = default fresh_reconciler
                          (AddEnv "RSYNC_OPTS" "-a"
                             (ConfigureRsync (Some {["b" := "2"]}) true
                                "database-data" "rsync-keys"
                                (set_job (stored_job 0) fresh_reconciler))))
    by (simpl in Hadd; by rewrite Hadd).
  exists jr0, (Apply (SetServiceAccount "mover" jr0)).2.
  assert (Ha : Apply (SetServiceAccount "mover" jr0)
               = (None, (Apply (SetServiceAccount "mover" jr0)).2))
    by (rewrite Hjr0; vm_compute; reflexivity).
  destruct (Happly _ Ha) as (Hcs & Hsa & _).
  split; [exact Hadd|]. split; [exact Ha|].
  split; [rewrite Hcs; reflexivity|exact Hsa].
Defined.

Lemma AddEnvs_appends_in_order_witness :
  (∃ jr',
     AddEnvs [("RSYNC_OPTS", "-a"); ("VERBOSE", "1"); ("RSYNC_OPTS", "-z")]
       rsync_reconciler = Some jr'
     ∧ Container.Env <$> desired_containers jr'
       = [[ EnvVar.mk "RSYNC_OPTS" "-a" None; EnvVar.mk "VERBOSE" "1" None;
            EnvVar.mk "RSYNC_OPTS" "-z" None ]])
  ∧ AddEnvs [("RSYNC_OPTS", "-a")] fresh_reconciler = None.
Proof.
  split.
  - destruct (AddEnvs_appends_in_order
                [("RSYNC_OPTS", "-a"); ("VERBOSE", "1"); ("RSYNC_OPTS", "-z")]
                rsync_reconciler) as [Hconf _].
    destruct (Hconf (Configured_builder
                       (CallRsync (Some {["b" := "2"]}) true "database-data"
                          "rsync-keys") fresh_reconciler))
      as (c & jr' & Hc & Hadd & Hafter & _).
    unfold rsync_reconciler, ConfigureRsync in Hc.
    rewrite assign_desired_spec_containers in Hc. injection Hc as <-.
    exists jr'. split; [exact Hadd|]. rewrite Hafter. reflexivity.
  - apply (proj2 (AddEnvs_appends_in_order [("RSYNC_OPTS", "-a")]
                    fresh_reconciler)).
    discriminate.
Defined.

Lemma AddEnv_after_Apply_reaches_job_witness :
  ∃ jr2,
    AddEnv "RSYNC_OPTS" "-a" (Apply rsync_reconciler_live).2 = Some jr2
    ∧ job jr2 = job (Apply rsync_reconciler_live).2
    ∧ Container.Env <$> job_containers (Apply rsync_reconciler_live).2 = [[]]
    ∧ Container.Env <$> job_containers jr2
      = [[EnvVar.mk "RSYNC_OPTS" "-a" None]].
Proof.
  assert (Ha : Apply rsync_reconciler_live
               = (None, (Apply rsync_reconciler_live).2))
    by (vm_compute; reflexivity).
  assert (Hconf : Configured rsync_reconciler_live).
  { apply (Configured_builder
             (CallRsync (Some {["b" := "2"]}) true "database-data"
                "rsync-keys")
             (set_job (stored_job 0) fresh_reconciler)). }
  destruct (AddEnv_after_Apply_reaches_job "RSYNC_OPTS" "-a" _ _ Hconf Ha)
    as (c & jr2 & Hc & Hadd & Hjob & Hafter & _).
  assert (Hc' : [c] = job_containers (Apply rsync_reconciler_live).2)
    by (by rewrite Hc).
  vm_compute in Hc'. injection Hc' as ->.
  exists jr2. split; [exact Hadd|]. split; [exact Hjob|].
  split; [vm_compute; reflexivity|]. rewrite Hafter. reflexivity.
Defined.

Lemma Reconcile_active_iff_witness :
  let run failed :=
    default ((true, Some ErrConflict), rsync_reconciler, empty_cluster)
      (Reconcile rsync_reconciler (cluster_with failed None)) in
  let cu failed :=
    CreateOrUpdate Apply rsync_reconciler (cluster_with failed None) in
  (Reconcile rsync_reconciler (cluster_with 3 None)
   = Some ((false, None), (run 3).1.2, (run 3).2)
   ∧ (None, (run 3).2)
     = Delete (job (cu 3).1.2, heap (cu 3).1.2)
         [PropagationPolicy DeletePropagationBackground] (cu 3).2)
  ∧ (Reconcile rsync_reconciler (cluster_with 0 None)
     = Some ((true, None), (run 0).1.2, (run 0).2)
     ∧ (run 0).2 = (cu 0).2).
Proof.
  intros run cu. split.
  - assert (Hcu : CreateOrUpdate Apply rsync_reconciler (cluster_with 3 None)
                  = ((cu 3).1.1.1, None, (cu 3).1.2, (cu 3).2))
      by (vm_compute; reflexivity).
    assert (Hr : Reconcile rsync_reconciler (cluster_with 3 None)
                 = Some ((false, None), (run 3).1.2, (run 3).2))
      by (vm_compute; reflexivity).
    destruct (Reconcile_active_iff _ _ _ _ _ _ Hcu) as [_ Hsome].
    destruct (Hsome _ _ _ _ Hr) as (_ & _ & _ & Hdel).
    split; [exact Hr|exact (Hdel eq_refl eq_refl)].
  - assert (Hcu : CreateOrUpdate Apply rsync_reconciler (cluster_with 0 None)
                  = ((cu 0).1.1.1, None, (cu 0).1.2, (cu 0).2))
      by (vm_compute; reflexivity).
    assert (Hr : Reconcile rsync_reconciler (cluster_with 0 None)
                 = Some ((true, None), (run 0).1.2, (run 0).2))
      by (vm_compute; reflexivity).
    destruct (Reconcile_active_iff _ _ _ _ _ _ Hcu) as [_ Hsome].
    destruct (Hsome _ _ _ _ Hr) as (_ & Hact & _).
    destruct (Hact eq_refl) as (_ & Hw & _).
    split; [exact Hr|exact Hw].
Defined.

Lemma Reconcile_keeps_configuration_witness :
  ∃ r jr' w',
    Reconcile rsync_reconciler (cluster_with 0 None) = Some (r, jr', w')
    ∧ paused jr' = false
    ∧ PodTemplateSpec.Labels (desired jr') = Some {["b" := "2"]}.
Proof.
  pose (r := default ((false, None), rsync_reconciler, empty_cluster)
               (Reconcile rsync_reconciler (cluster_with 0 None))).
  assert (Hr : Reconcile rsync_reconciler (cluster_with 0 None)
               = Some (r.1.1, r.1.2, r.2))
    by (vm_compute; reflexivity).
  destruct (Reconcile_keeps_configuration _ _ _ _ _ Hr)
    as (Hp & _ & _ & Hm & _).
  exists r.1.1, r.1.2, r.2. split; [exact Hr|]. split.
  - rewrite Hp. reflexivity.
  - unfold PodTemplateSpec.Labels. rewrite Hm. reflexivity.
Defined.

Lemma Reconcile_owner_reference_failure_witness :
  ∃ jr' w',
    Reconcile unregistered_reconciler (cluster_with 0 None)
    = Some ((false,
             Some (ErrOther "no kind is registered for the owner type")),
            jr', w')
    ∧ calls w' = [CallGet job_key]
    ∧ stored w' = stored (cluster_with 0 None).
Proof.
  pose (g := Get (ObjectKeyFromObject (job unregistered_reconciler))
               (job unregistered_reconciler, heap unregistered_reconciler)
               (cluster_with 0 None)).
  assert (Hget : Get (ObjectKeyFromObject (job unregistered_reconciler))
                   (job unregistered_reconciler, heap unregistered_reconciler)
                   (cluster_with 0 None)
                 = (None, (g.1.2.1, g.1.2.2), g.2))
    by (vm_compute; reflexivity).
  eexists _, g.2. split.
  - apply (Reconcile_owner_reference_failure _ _ _ _ _ _ _ Hget).
    + by left.
    + vm_compute. reflexivity.
  - split; vm_compute; reflexivity.
Defined.

Lemma Reconcile_converged_writes_nothing_witness :
  ∃ jr',
    Reconcile after_first_reconcile.1 after_first_reconcile.2
    = Some ((true, None), jr', record_call (CallGet job_key)
                                 after_first_reconcile.2)
    ∧ calls (record_call (CallGet job_key) after_first_reconcile.2)
      = [CallGet job_key; CallCreate job_key; CallGet job_key].
Proof.
  pose (jr := after_first_reconcile.1).
  pose (w := after_first_reconcile.2).
  pose (g := Get (ObjectKeyFromObject (job jr)) (job jr, heap jr) w).
  assert (Hget : Get (ObjectKeyFromObject (job jr)) (job jr, heap jr) w
                 = (None, (g.1.2.1, g.1.2.2),
                    record_call (CallGet job_key) w))
    by (vm_compute; reflexivity).
  assert (Hkey : ObjectKeyFromObject g.1.2.1 = ObjectKeyFromObject (job jr))
    by (vm_compute; reflexivity).
  assert (Hconv : converged (set_obj (g.1.2.1, g.1.2.2) jr)).
  { unfold converged. split_and!; try (vm_compute; reflexivity).
    apply map_subseteq_spec. intros k v. vm_compute.
    intros Hk. exact Hk. }
  destruct (Reconcile_converged_writes_nothing jr w _ _ _ Hget Hkey Hconv)
    as (jr1 & _ & _ & Hrec).
  eexists. split.
  - apply Hrec. vm_compute. reflexivity.
  - vm_compute. reflexivity.
Defined.

End MoreOnTheSampleCluster.

(** * Where the reconciler departs from the specification *)

Section SharedArrays.
Import Sample.


End SharedArrays.
